(** * pyvac248ipnative: the VAC248IP capture engine

    A shallow embedding of [pyvac248ipnative.c].  The C code talks to the
    kernel through [fcntl], [sendto], [poll], [recvfrom], [setsockopt] and
    [nanosleep]; here every such call takes its outcome from an explicit
    environment and acts on an explicit [world] (socket options, [errno],
    datagrams put on the wire).  The output buffer [dst] is the memory
    addressed relative to the [dst] pointer. *)

From Stdlib Require Import ZArith List Bool Lia.
Import ListNotations.
Open Scope Z_scope.

(** ** Machine integers

    [int] is 32 bits wide.  Signed arithmetic that leaves the range is
    undefined in C; the model wraps in two's complement, and the theorems
    that need it carry the range as a hypothesis. *)

Definition INT_MIN : Z := - 2 ^ 31.
Definition INT_MAX : Z := 2 ^ 31 - 1.

Definition to_int (z : Z) : Z := (z + 2 ^ 31) mod 2 ^ 32 - 2 ^ 31.
Definition to_uint (z : Z) : Z := z mod 2 ^ 32.
Definition to_uchar (z : Z) : Z := z mod 256.

(** ** Constants of the platform headers

    [O_NONBLOCK], [EINTR], [EAGAIN] and [EWOULDBLOCK] come from
    <fcntl.h> and <errno.h>, which are not part of the repository. *)

Class Platform : Type := {
  O_NONBLOCK : Z;
  EINTR : Z;
  EAGAIN : Z;
  EWOULDBLOCK : Z
}.

(** The values Linux gives them, for concrete runs. *)
Definition linux : Platform :=
  {| O_NONBLOCK := 2048; EINTR := 4; EAGAIN := 11; EWOULDBLOCK := 11 |}.

Definition PYVAC248IPNATIVE_IMPL_DATA_PACKET_SIZE_ : Z := 1472.
Definition PYVAC248IPNATIVE_IMPL_CONFIG_PACKET_SIZE_ : Z := 48.

(** ** The world outside the process *)

Record timeval : Type := { tv_sec : Z; tv_usec : Z }.

(** What the kernel keeps for the socket descriptor. *)
Record socket : Type := {
  so_flags : Z;
  so_rcvtimeo : timeval;
  so_sndtimeo : timeval
}.

(** A datagram handed to [sendto] and accepted by it. *)
Record sent_datagram : Type := {
  sd_ip : Z;
  sd_port : Z;
  sd_bytes : list Z
}.

Record world : Type := {
  w_sock : socket;
  w_errno : Z;
  w_sent : list sent_datagram
}.

(** How one system call ends: it succeeds, or fails and sets [errno]. *)
Inductive outcome : Type :=
| Succeeds
| Fails (e : Z).

Definition set_errno (e : Z) (w : world) : world :=
  {| w_sock := w_sock w; w_errno := e; w_sent := w_sent w |}.

Definition set_sock (s : socket) (w : world) : world :=
  {| w_sock := s; w_errno := w_errno w; w_sent := w_sent w |}.

(** State passing over the world. *)
Definition M (A : Type) : Type := world -> A * world.

Definition ret {A : Type} (a : A) : M A := fun w => (a, w).

Definition bind {A B : Type} (m : M A) (k : A -> M B) : M B :=
  fun w => let (a, w') := m w in k a w'.

Declare Scope sys_scope.
Delimit Scope sys_scope with sys.
Notation "x <- m ;; k" := (bind m (fun x => k))
  (at level 61, m at next level, right associativity) : sys_scope.
Notation "m ;;; k" := (bind m (fun _ => k))
  (at level 61, right associativity) : sys_scope.

(** *** System calls *)

(** [fcntl(fd, F_GETFL, 0)] *)
Definition fcntl_getfl (o : outcome) : M Z :=
  fun w =>
    match o with
    | Succeeds => (so_flags (w_sock w), w)
    | Fails e => (-1, set_errno e w)
    end.

(** [fcntl(fd, F_SETFL, flags)] *)
Definition fcntl_setfl (o : outcome) (flags : Z) : M Z :=
  fun w =>
    match o with
    | Succeeds =>
        (0, set_sock {| so_flags := flags;
                        so_rcvtimeo := so_rcvtimeo (w_sock w);
                        so_sndtimeo := so_sndtimeo (w_sock w) |} w)
    | Fails e => (-1, set_errno e w)
    end.

(** [setsockopt(fd, SOL_SOCKET, SO_RCVTIMEO, &timeout, sizeof(timeout))] *)
Definition setsockopt_rcvtimeo (o : outcome) (t : timeval) : M Z :=
  fun w =>
    match o with
    | Succeeds =>
        (0, set_sock {| so_flags := so_flags (w_sock w);
                        so_rcvtimeo := t;
                        so_sndtimeo := so_sndtimeo (w_sock w) |} w)
    | Fails e => (-1, set_errno e w)
    end.

(** [setsockopt(fd, SOL_SOCKET, SO_SNDTIMEO, &timeout, sizeof(timeout))] *)
Definition setsockopt_sndtimeo (o : outcome) (t : timeval) : M Z :=
  fun w =>
    match o with
    | Succeeds =>
        (0, set_sock {| so_flags := so_flags (w_sock w);
                        so_rcvtimeo := so_rcvtimeo (w_sock w);
                        so_sndtimeo := t |} w)
    | Fails e => (-1, set_errno e w)
    end.

(** [sendto(fd, buf, sizeof(buf), 0, &dst_sockaddr, sizeof(dst_sockaddr))] *)
Definition sendto (o : outcome) (ip port : Z) (buf : list Z) : M Z :=
  fun w =>
    match o with
    | Succeeds =>
        (Z.of_nat (length buf),
         {| w_sock := w_sock w; w_errno := w_errno w;
            w_sent := w_sent w ++ [{| sd_ip := ip; sd_port := port; sd_bytes := buf |}] |})
    | Fails e => (-1, set_errno e w)
    end.

(** ** The output buffer

    [dst] is a raw byte region; a cell is addressed by its offset from the
    [dst] pointer and holds an [unsigned char]. *)

Definition mem : Type := Z -> Z.

Definition store (p v : Z) (m : mem) : mem :=
  fun q => if q =? p then v else m q.

(** The [n] bytes a successful [recvfrom] copies to offset [p]. *)
Definition store_bytes (p n : Z) (bytes : list Z) (m : mem) : mem :=
  fun q =>
    if (p <=? q) && (q <? p + n)
    then to_uchar (nth (Z.to_nat (q - p)) bytes 0)
    else m q.

(** Lines 149-152: the loop that presets the packet type.  The pointer
    [p] is kept as its offset from [dst]; it grows by 1473 in every round,
    so [fuel] rounds are enough when [fuel] is at least [dst_size]. *)
Fixpoint init_markers_loop (fuel : nat) (p dst_size : Z) (m : mem) : mem :=
  match fuel with
  | O => m
  | S fuel' =>
      if p <? dst_size
      then init_markers_loop fuel'
             (p + (PYVAC248IPNATIVE_IMPL_DATA_PACKET_SIZE_ + 1)) dst_size (store p 0 m)
      else m
  end.

Definition init_markers (dst_size : Z) (m : mem) : mem :=
  init_markers_loop (Z.to_nat dst_size) 0 dst_size m.

(** ** What the environment answers during one call *)

(** One [send_command_] call: the end of its [sendto], and the [errno] of
    every [nanosleep] that fails before one returns 0. *)
Record send_env : Type := {
  se_sendto : outcome;
  se_sleep : list Z
}.

(** One [drop_packets_] call: the interruptions of its sleep, how many
    datagrams are queued, and the [errno] of the [recvfrom] that ends it. *)
Record drop_env : Type := {
  de_sleep : list Z;
  de_queued : nat;
  de_errno : Z
}.

(** One round of the receive loop: what [poll] returns (and the [errno] it
    sets when negative), what [recvfrom] returns (and its [errno] when
    negative), the [sin_addr.s_addr] it leaves in [src_sockaddr] and the
    bytes it copies out.  (The function never sets [src_sockaddr_len]
    before the call; the address is taken as [recvfrom] stores it.) *)
Record arrival : Type := {
  poll_res : Z;
  poll_errno : Z;
  recvfrom_res : Z;
  recvfrom_errno : Z;
  s_addr : Z;
  payload : list Z
}.

Record env : Type := {
  env_getfl : outcome;
  env_setfl : outcome;
  env_stop1 : send_env;
  env_drop1 : drop_env;
  env_start : send_env;
  env_exposure : send_env;
  env_arrivals : list arrival;
  env_stop2 : send_env;
  env_settle : list Z;
  env_drop2 : drop_env;
  env_restore_setfl : outcome;
  env_rcvtimeo : outcome;
  env_sndtimeo : outcome
}.

(** The arguments of [pyvac248ipnative_capture_packets] other than [dst]
    and [packets_received]. *)
Record capture_args : Type := {
  dst_size : Z;
  frames : Z;
  frame_packets : Z;
  camera_ip : Z;
  camera_port : Z;
  video_format : Z;
  max_incorrect_length_packets : Z;
  send_command_delay_ms : Z;
  get_frame_delay_ms : Z;
  drop_packets_delay_ms : Z;
  network_operation_timeout_ms : Z;
  exposure : Z
}.

(** The locals of the function that live across loop rounds. *)
Record loop_state : Type := {
  packets_received_ : Z;
  incorrect_packets_length : Z;
  result : Z;
  errno_ : Z;
  dst : mem
}.

(** How one round leaves the loop body: [continue] (or falling off its
    end) or [break]. *)
Inductive step : Type :=
| Continue (st : loop_state)
| Break (st : loop_state).

(** How the loop ends on a finite list of arrivals: it was left, or it
    still waits when the list is used up. *)
Inductive loop_run : Type :=
| Left_loop (st : loop_state)
| Still_receiving (st : loop_state).

(** What the caller sees: the return value, the cell [*packets_received]
    and the buffer. *)
Record capture_return : Type := {
  status : Z;
  packets_received : Z;
  buffer : mem
}.

Section Engine.

Context {P : Platform}.

Local Open Scope sys_scope.

(** [pyvac248ipnative_impl_sleep_ms_]; elapsed time is not part of the
    model, the return value and [errno] are. *)
Fixpoint pyvac248ipnative_impl_sleep_ms_ (delay_ms : Z) (interrupts : list Z) : M Z :=
  match interrupts with
  | [] => ret 0
  | e :: rest =>
      fun w =>
        let w' := set_errno e w in
        if w_errno w' =? EINTR
        then pyvac248ipnative_impl_sleep_ms_ delay_ms rest w'
        else (-1, w')
  end.

(** The array [buf] of [pyvac248ipnative_impl_send_command_]; [command]
    and [data] are [unsigned int]. *)
Definition command_buf (command data : Z) : list Z :=
  [ to_uchar (Z.land command 0xff);
    to_uchar (Z.land data 0xff);
    0x00; 0x00; 0x00; 0x00; 0x00;
    to_uchar (Z.land (to_uint (command + data)) 0xff) ].

Definition pyvac248ipnative_impl_send_command_
    (o : send_env) (camera_ip camera_port command data send_command_delay_ms : Z) : M Z :=
  r <- sendto (se_sendto o) camera_ip camera_port (command_buf command data) ;;
  if r <? 0 then ret (-1)
  else pyvac248ipnative_impl_sleep_ms_ send_command_delay_ms (se_sleep o).

Definition pyvac248ipnative_impl_send_command_start_
    (o : send_env) (camera_ip camera_port format send_command_delay_ms : Z) : M Z :=
  pyvac248ipnative_impl_send_command_ o camera_ip camera_port
    0x5a (to_uint (Z.lor format 0x80)) send_command_delay_ms.

Definition pyvac248ipnative_impl_send_command_stop_
    (o : send_env) (camera_ip camera_port send_command_delay_ms : Z) : M Z :=
  pyvac248ipnative_impl_send_command_ o camera_ip camera_port
    0x5a 0x00 send_command_delay_ms.

Definition pyvac248ipnative_impl_send_command_exposure_
    (o : send_env) (camera_ip camera_port exposure send_command_delay_ms : Z) : M Z :=
  pyvac248ipnative_impl_send_command_ o camera_ip camera_port
    0xc0 (to_uint exposure) send_command_delay_ms.

(** The [while (recvfrom(...) >= 0)] of [drop_packets_]: [queued]
    datagrams are read into the scratch array, then [recvfrom] fails. *)
Fixpoint drain_loop (queued : nat) (e : Z) : M unit :=
  match queued with
  | O => fun w => (tt, set_errno e w)
  | S queued' => drain_loop queued' e
  end.

Definition pyvac248ipnative_impl_drop_packets_ (o : drop_env) (drop_packets_delay_ms : Z) : M Z :=
  pyvac248ipnative_impl_sleep_ms_ drop_packets_delay_ms (de_sleep o) ;;;
  drain_loop (de_queued o) (de_errno o) ;;;
  fun w => (if (w_errno w =? EAGAIN) || (w_errno w =? EWOULDBLOCK) then 0 else -1, w).

Definition timeval_of_ms (timeout_ms : Z) : timeval :=
  {| tv_sec := Z.quot timeout_ms 1000;
     tv_usec := Z.rem timeout_ms 1000 * 1000 |}.

Definition pyvac248ipnative_impl_set_socket_timeout_
    (o_rcv o_snd : outcome) (timeout_ms : Z) : M Z :=
  let timeout := timeval_of_ms timeout_ms in
  r1 <- setsockopt_rcvtimeo o_rcv timeout ;;
  if r1 <? 0 then ret (-1)
  else
    r2 <- setsockopt_sndtimeo o_snd timeout ;;
    if r2 <? 0 then ret (-1) else ret 0.

(** [poll(&poll_fd, 1, network_operation_timeout_ms)] *)
Definition poll (ev : arrival) : M Z :=
  fun w =>
    (poll_res ev,
     if poll_res ev <? 0 then set_errno (poll_errno ev) w else w).

(** [recvfrom(socket_fd, packet_buffer, len, 0, &src_sockaddr, &src_sockaddr_len)]:
    the return value and the buffer after the call. *)
Definition recvfrom (ev : arrival) (packet_buffer len : Z) (m : mem) : M (Z * mem) :=
  fun w =>
    if recvfrom_res ev <? 0
    then ((recvfrom_res ev, m), set_errno (recvfrom_errno ev) w)
    else ((recvfrom_res ev,
           store_bytes packet_buffer (Z.min (recvfrom_res ev) len) (payload ev) m), w).

Definition with_received (n : Z) (st : loop_state) : loop_state :=
  {| packets_received_ := n; incorrect_packets_length := incorrect_packets_length st;
     result := result st; errno_ := errno_ st; dst := dst st |}.

Definition with_incorrect (n : Z) (st : loop_state) : loop_state :=
  {| packets_received_ := packets_received_ st; incorrect_packets_length := n;
     result := result st; errno_ := errno_ st; dst := dst st |}.

Definition with_result (r : Z) (st : loop_state) : loop_state :=
  {| packets_received_ := packets_received_ st;
     incorrect_packets_length := incorrect_packets_length st;
     result := r; errno_ := errno_ st; dst := dst st |}.

Definition with_errno_ (e : Z) (st : loop_state) : loop_state :=
  {| packets_received_ := packets_received_ st;
     incorrect_packets_length := incorrect_packets_length st;
     result := result st; errno_ := e; dst := dst st |}.

Definition with_dst (m : mem) (st : loop_state) : loop_state :=
  {| packets_received_ := packets_received_ st;
     incorrect_packets_length := incorrect_packets_length st;
     result := result st; errno_ := errno_ st; dst := m |}.

(** Lines 169-246: one round of the [while] loop. *)
Definition loop_body (a : capture_args) (ev : arrival) (st : loop_state) : M step :=
  let packet_buffer_offset :=
    to_int (packets_received_ st * (PYVAC248IPNATIVE_IMPL_DATA_PACKET_SIZE_ + 1)) in
  let packet_buffer := packet_buffer_offset + 1 in
  poll_res <- poll ev ;;
  if poll_res =? 1 then
    rb <- recvfrom ev packet_buffer PYVAC248IPNATIVE_IMPL_DATA_PACKET_SIZE_ (dst st) ;;
    let (recvfrom_res, dst') := rb in
    let st := with_dst dst' st in
    if recvfrom_res <? 0 then
      fun w => (Break (with_errno_ (w_errno w) (with_result (-1) st)), w)
    else if recvfrom_res =? PYVAC248IPNATIVE_IMPL_DATA_PACKET_SIZE_ then
      if negb (s_addr ev =? camera_ip a) then ret (Continue st)
      else
        let st := with_incorrect 0 st in
        let frame_number := dst st packet_buffer in
        let packet_offset :=
          Z.lor (Z.lor (Z.shiftl (dst st (packet_buffer + 1)) 16)
                       (Z.shiftl (dst st (packet_buffer + 2)) 8))
                (dst st (packet_buffer + 3)) in
        if (frame_number =? 0)
           || (packet_offset >?
                 to_int ((PYVAC248IPNATIVE_IMPL_DATA_PACKET_SIZE_ - 4)
                         * to_int (frame_packets a - 1)))
           || negb (Z.rem packet_offset (PYVAC248IPNATIVE_IMPL_DATA_PACKET_SIZE_ - 4) =? 0)
        then ret (Continue st)
        else if frame_number >? frames a then ret (Break (with_result 0 st))
        else ret (Continue (with_received (to_int (packets_received_ st + 1)) st))
    else if recvfrom_res =? PYVAC248IPNATIVE_IMPL_CONFIG_PACKET_SIZE_ then
      if negb (s_addr ev =? camera_ip a) then ret (Continue st)
      else
        let st := with_dst (store packet_buffer_offset 1 (dst st)) st in
        let st := with_incorrect 0 st in
        ret (Continue (with_received (to_int (packets_received_ st + 1)) st))
    else
      let st := with_incorrect (to_int (incorrect_packets_length st + 1)) st in
      if incorrect_packets_length st >? max_incorrect_length_packets a
      then ret (Break (with_result 2 st))
      else ret (Continue st)
  else if poll_res =? 0 then ret (Break (with_result 1 st))
  else fun w => (Break (with_errno_ (w_errno w) (with_result (-1) st)), w).

(** Lines 168-247: the [while (packets_received_ < dst_size)] loop, one
    arrival per round. *)
Fixpoint capture_loop (a : capture_args) (evs : list arrival) (st : loop_state)
  : M loop_run :=
  if packets_received_ st <? dst_size a then
    match evs with
    | [] => ret (Still_receiving st)
    | ev :: evs' =>
        s <- loop_body a ev st ;;
        match s with
        | Break st' => ret (Left_loop st')
        | Continue st' => capture_loop a evs' st'
        end
    end
  else ret (Left_loop st).

(** Lines 255-260: the condition of the [if] that restores the socket;
    [true] when the restoration failed. *)
Definition restore_socket (a : capture_args) (e : env)
    (fcntl_res_before fcntl_res_required : Z) : M bool :=
  if negb (fcntl_res_required =? fcntl_res_before) then
    r <- fcntl_setfl (env_restore_setfl e) fcntl_res_before ;;
    if r <? 0 then ret true
    else
      r' <- pyvac248ipnative_impl_set_socket_timeout_
              (env_rcvtimeo e) (env_sndtimeo e) (network_operation_timeout_ms a) ;;
      ret (r' <? 0)
  else ret false.

(** Lines 261-274: the body of that [if], run when [failed], and the
    output data. *)
Definition set_output (st : loop_state) (failed : bool) : M capture_return :=
  fun w =>
    let st :=
      if failed
      then with_result (-1) (if errno_ st =? 0 then with_errno_ (w_errno w) st else st)
      else st in
    if result st =? -1
    then ({| status := result st; packets_received := 0; buffer := dst st |},
          set_errno (errno_ st) w)
    else ({| status := result st; packets_received := packets_received_ st;
             buffer := dst st |}, w).

(** Lines 249-274: everything after the loop. *)
Definition after_loop (a : capture_args) (e : env)
    (fcntl_res_before fcntl_res_required : Z) (st : loop_state) : M capture_return :=
  pyvac248ipnative_impl_send_command_stop_
    (env_stop2 e) (camera_ip a) (camera_port a) (send_command_delay_ms a) ;;;
  pyvac248ipnative_impl_sleep_ms_ (get_frame_delay_ms a) (env_settle e) ;;;
  pyvac248ipnative_impl_drop_packets_ (env_drop2 e) (drop_packets_delay_ms a) ;;;
  failed <- restore_socket a e fcntl_res_before fcntl_res_required ;;
  set_output st failed.

(** [pyvac248ipnative_capture_packets]; [dst0] and [packets_received0] are
    what the caller's buffer and [*packets_received] hold on entry.  The
    answer is [None] when the arrivals are used up while the loop still
    waits. *)
Definition pyvac248ipnative_capture_packets
    (a : capture_args) (e : env) (dst0 : mem) (packets_received0 : Z)
  : M (option capture_return) :=
  let early :=
    {| status := -1; packets_received := packets_received0; buffer := dst0 |} in
  fcntl_res_before <- fcntl_getfl (env_getfl e) ;;
  if fcntl_res_before <? 0 then ret (Some early)
  else
    let fcntl_res_required := Z.lor fcntl_res_before O_NONBLOCK in
    r <- (if negb (fcntl_res_required =? fcntl_res_before)
          then fcntl_setfl (env_setfl e) fcntl_res_required
          else ret 0) ;;
    if r <? 0 then ret (Some early)
    else
      let dst1 := init_markers (dst_size a) dst0 in
      pyvac248ipnative_impl_send_command_stop_
        (env_stop1 e) (camera_ip a) (camera_port a) (send_command_delay_ms a) ;;;
      pyvac248ipnative_impl_drop_packets_ (env_drop1 e) (drop_packets_delay_ms a) ;;;
      pyvac248ipnative_impl_send_command_start_
        (env_start e) (camera_ip a) (camera_port a) (video_format a)
        (send_command_delay_ms a) ;;;
      pyvac248ipnative_impl_send_command_exposure_
        (env_exposure e) (camera_ip a) (camera_port a) (exposure a)
        (send_command_delay_ms a) ;;;
      run <- capture_loop a (env_arrivals e)
               {| packets_received_ := 0; incorrect_packets_length := 0;
                  result := 0; errno_ := 0; dst := dst1 |} ;;
      match run with
      | Still_receiving _ => ret None
      | Left_loop st =>
          r <- after_loop a e fcntl_res_before fcntl_res_required st ;;
          ret (Some r)
      end.

End Engine.

(** ** Concrete inputs used by the examples below *)

Definition quiet_send : send_env := {| se_sendto := Succeeds; se_sleep := [] |}.

Definition quiet_drop : drop_env := {| de_sleep := []; de_queued := 0; de_errno := 11 |}.

(** An environment in which every call succeeds and [arrivals] come in. *)
Definition calm_env (arrivals : list arrival) : env :=
  {| env_getfl := Succeeds; env_setfl := Succeeds;
     env_stop1 := quiet_send; env_drop1 := quiet_drop;
     env_start := quiet_send; env_exposure := quiet_send;
     env_arrivals := arrivals;
     env_stop2 := quiet_send; env_settle := []; env_drop2 := quiet_drop;
     env_restore_setfl := Succeeds; env_rcvtimeo := Succeeds;
     env_sndtimeo := Succeeds |}.

(** A datagram of [len] bytes from [addr] that starts with [bytes]. *)
Definition datagram (len addr : Z) (bytes : list Z) : arrival :=
  {| poll_res := 1; poll_errno := 0; recvfrom_res := len; recvfrom_errno := 0;
     s_addr := addr; payload := bytes |}.

(** The camera of the examples sits at 192.168.0.2 (as [s_addr]: 33597632). *)
Definition example_args (size : Z) : capture_args :=
  {| dst_size := size; frames := 2; frame_packets := 2;
     camera_ip := 33597632; camera_port := 1024; video_format := 3;
     max_incorrect_length_packets := 2;
     send_command_delay_ms := 10; get_frame_delay_ms := 10;
     drop_packets_delay_ms := 10; network_operation_timeout_ms := 1500;
     exposure := 17 |}.


(** A socket with the given flags and a 5 s timeout both ways. *)
Definition example_world (flags : Z) : world :=
  {| w_sock := {| so_flags := flags;
                  so_rcvtimeo := {| tv_sec := 5; tv_usec := 0 |};
                  so_sndtimeo := {| tv_sec := 5; tv_usec := 0 |} |};
     w_errno := 0; w_sent := [] |}.

(** The [s_addr] of the camera of the examples. *)
Definition camera : Z := 33597632.

(** [poll] returns 0: nothing arrived within the read timeout. *)
Definition no_datagram : arrival :=
  {| poll_res := 0; poll_errno := 0; recvfrom_res := 0; recvfrom_errno := 0;
     s_addr := 0; payload := [] |}.

(** [poll] fails and sets [errno] to [e]. *)
Definition poll_failure (e : Z) : arrival :=
  {| poll_res := -1; poll_errno := e; recvfrom_res := 0; recvfrom_errno := 0;
     s_addr := 0; payload := [] |}.

(** Frame 0 at offset 0, frame 1 at offsets 0 and 1468, frame 3 at
    offset 0; byte 4 tells the datagrams apart. *)
Definition example_feed : list arrival :=
  [ datagram 1472 camera [0; 0; 0; 0; 170];
    datagram 1472 camera [1; 0; 0; 0; 171];
    datagram 1472 camera [1; 0; 5; 188; 172];
    datagram 1472 camera [3; 0; 0; 0; 173] ].

(** A 100-byte datagram from some other host. *)
Definition junk : arrival := datagram 100 12345 [1; 2; 3].

(** A frame-0 datagram of the camera. *)
Definition sentinel : arrival := datagram 1472 camera [0; 0; 0; 0; 170].

(** Five malformed datagrams in runs of at most two, a sentinel after
    each run. *)
Definition example_blocks : list (list arrival * arrival) :=
  [ ([junk; junk], sentinel); ([junk], sentinel); ([junk; junk], sentinel) ].

(** Frame 1 at offset 0, frame 1 at offset 1468, and frame 3 at offset 0. *)
Definition first_packet : arrival := datagram 1472 camera [1; 0; 0; 0; 171].

Definition second_packet : arrival := datagram 1472 camera [1; 0; 5; 188; 172].

Definition late_packet : arrival := datagram 1472 camera [3; 0; 0; 0; 173].

(** A config packet of the camera. *)
Definition config_packet : arrival := datagram 48 camera [9; 9].

(** An environment in which the first Stop and SetExposure are lost, the
    sleep after Start is cut short by a failure, and the first drain ends
    on an error. *)
Definition lossy_env (arrivals : list arrival) : env :=
  {| env_getfl := Succeeds; env_setfl := Succeeds;
     env_stop1 := {| se_sendto := Fails 101; se_sleep := [] |};
     env_drop1 := {| de_sleep := [4]; de_queued := 3; de_errno := 9 |};
     env_start := {| se_sendto := Succeeds; se_sleep := [4; 22] |};
     env_exposure := {| se_sendto := Fails 101; se_sleep := [] |};
     env_arrivals := arrivals;
     env_stop2 := quiet_send; env_settle := [22]; env_drop2 := quiet_drop;
     env_restore_setfl := Succeeds; env_rcvtimeo := Succeeds;
     env_sndtimeo := Succeeds |}.

(** A buffer of zeros. *)
Definition zeroed : mem := fun _ => 0.

(** A buffer used before: the slot at index 1 held a config packet. *)
Definition used_before : mem := fun q => if q =? 1473 then 1 else 0.

(** The descriptor is not open: [F_GETFL] fails with [EBADF] (9). *)
Definition bad_descriptor_env : env :=
  {| env_getfl := Fails 9; env_setfl := Succeeds;
     env_stop1 := quiet_send; env_drop1 := quiet_drop;
     env_start := quiet_send; env_exposure := quiet_send;
     env_arrivals := [];
     env_stop2 := quiet_send; env_settle := []; env_drop2 := quiet_drop;
     env_restore_setfl := Succeeds; env_rcvtimeo := Succeeds;
     env_sndtimeo := Succeeds |}.

(** [poll] fails with [EINTR] (4) in the first round, and afterwards the
    flags cannot be put back: [F_SETFL] fails with [EBADF] (9). *)
Definition failing_env : env :=
  {| env_getfl := Succeeds; env_setfl := Succeeds;
     env_stop1 := quiet_send; env_drop1 := quiet_drop;
     env_start := quiet_send; env_exposure := quiet_send;
     env_arrivals := [poll_failure 4];
     env_stop2 := quiet_send; env_settle := []; env_drop2 := quiet_drop;
     env_restore_setfl := Fails 9; env_rcvtimeo := Succeeds;
     env_sndtimeo := Succeeds |}.

(** The value a call returned, for calls that did return. *)
Definition the_return (x : option capture_return) : capture_return :=
  match x with
  | Some r => r
  | None => {| status := -1; packets_received := 0; buffer := zeroed |}
  end.

(** ** Vocabulary of the statements *)

(** Byte 0 of a received datagram. *)
Definition frame_number_of (ev : arrival) : Z := to_uchar (nth 0 (payload ev) 0).

(** Bytes 1-3 of a received datagram, read as a 24-bit big-endian number. *)
Definition pixel_offset_of (ev : arrival) : Z :=
  to_uchar (nth 1 (payload ev) 0) * 65536
  + to_uchar (nth 2 (payload ev) 0) * 256
  + to_uchar (nth 3 (payload ev) 0).

(** [poll] reports the socket readable and [recvfrom] returns [len]. *)
Definition received (len : Z) (ev : arrival) : Prop :=
  poll_res ev = 1 /\ recvfrom_res ev = len.

(** A received datagram whose length is neither 1472 nor 48. *)
Definition malformed (ev : arrival) : Prop :=
  poll_res ev = 1 /\ 0 <= recvfrom_res ev
  /\ recvfrom_res ev <> PYVAC248IPNATIVE_IMPL_DATA_PACKET_SIZE_
  /\ recvfrom_res ev <> PYVAC248IPNATIVE_IMPL_CONFIG_PACKET_SIZE_.

(** Offset of [packet_buffer], the payload region of the slot the next
    accepted packet goes to. *)
Definition slot_payload (st : loop_state) : Z :=
  to_int (packets_received_ st * 1473) + 1.

(** The state once [recvfrom] has copied the datagram of [ev] to
    [packet_buffer]. *)
Definition after_recv (ev : arrival) (st : loop_state) : loop_state :=
  with_dst (store_bytes (slot_payload st) (Z.min (recvfrom_res ev) 1472)
              (payload ev) (dst st)) st.

(** A 1472-byte datagram of the camera that the filter of lines 214-218
    throws away. *)
Definition discarded (a : capture_args) (ev : arrival) : Prop :=
  received 1472 ev /\ s_addr ev = camera_ip a
  /\ (frame_number_of ev = 0
      \/ pixel_offset_of ev > 1468 * (frame_packets a - 1)
      \/ pixel_offset_of ev mod 1468 <> 0).

(** Runs of malformed datagrams, each followed by one discarded camera
    packet. *)
Fixpoint interleave (blocks : list (list arrival * arrival)) : list arrival :=
  match blocks with
  | [] => []
  | (run, d) :: blocks' => run ++ d :: interleave blocks'
  end.

(** [Some (result, packets_received_)] when the loop was left. *)
Definition left_with (r : loop_run) : option (Z * Z) :=
  match r with
  | Left_loop st => Some (result st, packets_received_ st)
  | Still_receiving _ => None
  end.

(** The [errno] of the first call that fails when the socket is restored
    (lines 257-258), if one does. *)
Definition restoration_failure (e : env) : option Z :=
  match env_restore_setfl e with
  | Fails c => Some c
  | Succeeds =>
      match env_rcvtimeo e with
      | Fails c => Some c
      | Succeeds =>
          match env_sndtimeo e with
          | Fails c => Some c
          | Succeeds => None
          end
      end
  end.


(** A round in which [poll] returns neither 0 nor 1, or [recvfrom] a
    negative value. *)
Definition round_fails (ev : arrival) : Prop :=
  (poll_res ev <> 0 /\ poll_res ev <> 1)
  \/ (poll_res ev = 1 /\ recvfrom_res ev < 0).

(** The locals when the loop is entered. *)
Definition entry_state (a : capture_args) (dst0 : mem) : loop_state :=
  {| packets_received_ := 0; incorrect_packets_length := 0;
     result := 0; errno_ := 0; dst := init_markers (dst_size a) dst0 |}.

(** The socket as the restoration leaves it when it succeeds. *)
Definition restored (a : capture_args) (flags : Z) : socket :=
  {| so_flags := flags;
     so_rcvtimeo := timeval_of_ms (network_operation_timeout_ms a);
     so_sndtimeo := timeval_of_ms (network_operation_timeout_ms a) |}.

(** Init went through: [F_GETFL] gave the flags and, where the socket had
    to be switched, [F_SETFL] did it. *)
Definition init_succeeds {P : Platform} (e : env) (w : world) : Prop :=
  env_getfl e = Succeeds
  /\ 0 <= so_flags (w_sock w)
  /\ (Z.lor (so_flags (w_sock w)) O_NONBLOCK <> so_flags (w_sock w) ->
      env_setfl e = Succeeds).

(** The state a round leaves behind, whichever way it ends. *)
Definition state_of (s : step) : loop_state :=
  match s with Continue st => st | Break st => st end.

(** The 8-byte layout [opcode][payload][0][0][0][0][0][checksum]. *)
Definition command_datagram (opcode data : Z) : list Z :=
  [opcode; data; 0; 0; 0; 0; 0; (opcode + data) mod 256].

(** The three commands a capture call with arguments [a] can send. *)
Definition is_command (a : capture_args) (bytes : list Z) : Prop :=
  bytes = command_datagram 0x5a 0x00
  \/ bytes = command_datagram 0x5a (Z.lor (video_format a) 0x80)
  \/ bytes = command_datagram 0xc0 (exposure a).

(** A computation keeps [R] when [R] relates the world before it to the
    world after it. *)
Definition keeps (R : world -> world -> Prop) {A : Type} (m : M A) : Prop :=
  forall w, R w (snd (m w)).

(** The socket options are the same in both worlds. *)
Definition same_sock (w w' : world) : Prop := w_sock w' = w_sock w.

(** Every datagram put on the wire between the two worlds satisfies [ok]. *)
Definition sent_only (ok : list Z -> Prop) (w w' : world) : Prop :=
  exists l, w_sent w' = w_sent w ++ l /\ Forall (fun d => ok (sd_bytes d)) l.

(** The world in which the receive loop starts: the socket is
    non-blocking. *)
Definition nonblocking {P : Platform} (w : world) : world :=
  set_sock {| so_flags := Z.lor (so_flags (w_sock w)) O_NONBLOCK;
              so_rcvtimeo := so_rcvtimeo (w_sock w);
              so_sndtimeo := so_sndtimeo (w_sock w) |} w.

(** The world once [sendto] has accepted the datagram [d]. *)
Definition put_on_wire (d : sent_datagram) (w : world) : world :=
  {| w_sock := w_sock w; w_errno := w_errno w; w_sent := w_sent w ++ [d] |}.

(** A datagram the loop stores and counts: a data packet of the camera
    for a wanted frame at a valid offset, or a config packet of the
    camera. *)
Definition accepted (a : capture_args) (ev : arrival) : Prop :=
  s_addr ev = camera_ip a
  /\ ((received 1472 ev
       /\ 1 <= frame_number_of ev <= frames a
       /\ pixel_offset_of ev mod 1468 = 0
       /\ pixel_offset_of ev <= 1468 * (frame_packets a - 1))
      \/ received 48 ev).

(** The locals the loop ends with on a list of arrivals, left or not. *)
Definition final_state (r : loop_run) : loop_state :=
  match r with Left_loop st => st | Still_receiving st => st end.

(** A data packet of the camera that passes the filter and belongs to a
    frame after the last wanted one. *)
Definition frame_complete (a : capture_args) (ev : arrival) : Prop :=
  received 1472 ev /\ s_addr ev = camera_ip a
  /\ frame_number_of ev <> 0 /\ frame_number_of ev > frames a
  /\ pixel_offset_of ev mod 1468 = 0
  /\ pixel_offset_of ev <= 1468 * (frame_packets a - 1).

(** The restoration after the loop is not needed or goes through. *)
Definition restoration_succeeds {P : Platform} (e : env) (w : world) : Prop :=
  Z.lor (so_flags (w_sock w)) O_NONBLOCK = so_flags (w_sock w)
  \/ restoration_failure e = None.

(** The datagram of one send, if its [sendto] succeeds. *)
Definition sent_if (o : send_env) (d : sent_datagram) : list sent_datagram :=
  match se_sendto o with
  | Succeeds => [d]
  | Fails _ => []
  end.

(** A datagram addressed to the camera. *)
Definition to_camera (a : capture_args) (bytes : list Z) : sent_datagram :=
  {| sd_ip := camera_ip a; sd_port := camera_port a; sd_bytes := bytes |}.

(** Nothing goes on the wire between the two worlds. *)
Definition same_sent (w w' : world) : Prop := w_sent w' = w_sent w.

(** The locals of two runs agree, [errno_] apart. *)
Definition same_locals (st st' : loop_state) : Prop :=
  packets_received_ st = packets_received_ st'
  /\ incorrect_packets_length st = incorrect_packets_length st'
  /\ result st = result st'
  /\ dst st = dst st'.

(** Two environments that differ at most in how the sends, sleeps and
    drains go. *)
Definition same_but_commands (e1 e2 : env) : Prop :=
  env_getfl e1 = env_getfl e2 /\ env_setfl e1 = env_setfl e2
  /\ env_arrivals e1 = env_arrivals e2
  /\ env_restore_setfl e1 = env_restore_setfl e2
  /\ env_rcvtimeo e1 = env_rcvtimeo e2 /\ env_sndtimeo e1 = env_sndtimeo e2.

(** Two rounds end the same way with locals that agree. *)
Definition same_step (s s' : step) : Prop :=
  match s, s' with
  | Continue st, Continue st' => same_locals st st'
  | Break st, Break st' => same_locals st st'
  | _, _ => False
  end.

(** Two loops end the same way with locals that agree. *)
Definition same_run (r r' : loop_run) : Prop :=
  match r, r' with
  | Left_loop st, Left_loop st' => same_locals st st'
  | Still_receiving st, Still_receiving st' => same_locals st st'
  | _, _ => False
  end.

(** Two calls hand back the same status, count and buffer, or both run
    out of arrivals. *)
Definition same_return (o o' : option capture_return) : Prop :=
  match o, o' with
  | Some r, Some r' =>
      status r = status r' /\ packets_received r = packets_received r'
      /\ forall q, buffer r q = buffer r' q
  | None, None => True
  | _, _ => False
  end.

(** * Properties *)

(** ** Machine arithmetic *)

Lemma to_int_in_range (z : Z) : INT_MIN <= z <= INT_MAX -> to_int z = z.
Proof.
  unfold INT_MIN, INT_MAX, to_int. intros Hz.
  rewrite Z.mod_small; lia.
Qed.

Lemma to_uchar_range (z : Z) : 0 <= to_uchar z < 256.
Proof. unfold to_uchar. apply Z.mod_pos_bound. lia. Qed.

Lemma to_uchar_small (z : Z) : 0 <= z < 256 -> to_uchar z = z.
Proof. unfold to_uchar. intros Hz. apply Z.mod_small. exact Hz. Qed.

Lemma land_0xff (z : Z) : Z.land z 0xff = z mod 256.
Proof. change 0xff with (Z.ones 8). rewrite Z.land_ones by lia. reflexivity. Qed.

Lemma low_byte (z : Z) : to_uchar (Z.land z 0xff) = z mod 256.
Proof. rewrite land_0xff. unfold to_uchar. apply Z.mod_mod. lia. Qed.

Lemma low_byte_uint (z : Z) : to_uchar (Z.land (to_uint z) 0xff) = z mod 256.
Proof.
  rewrite low_byte. unfold to_uint.
  change (2 ^ 32) with (256 * 16777216).
  rewrite Z.rem_mul_r by lia.
  rewrite (Z.mul_comm 256), Z.mod_add by lia.
  apply Z.mod_mod. lia.
Qed.

(** Setting bit 7 of a byte gives a byte. *)
Lemma lor_0x80_byte (z : Z) : 0 <= z < 256 -> 0 <= Z.lor z 0x80 < 256.
Proof.
  intros Hz. split.
  - apply Z.lor_nonneg. lia.
  - destruct (Z.eq_dec (Z.lor z 0x80) 0) as [E | E]; [lia |].
    apply Z.log2_lt_cancel. rewrite Z.log2_lor by lia.
    change (Z.log2 0x80) with 7. change (Z.log2 256) with 8.
    assert (Z.log2 z < 8).
    { destruct (Z.eq_dec z 0) as [-> | Hz0]; [cbn; lia |].
      apply Z.log2_lt_pow2; lia. }
    lia.
Qed.

(** Three bytes combined with shifts and [|] are the big-endian number. *)
Lemma be24_value (b1 b2 b3 : Z) :
  0 <= b1 < 256 -> 0 <= b2 < 256 -> 0 <= b3 < 256 ->
  Z.lor (Z.lor (Z.shiftl b1 16) (Z.shiftl b2 8)) b3 = b1 * 65536 + b2 * 256 + b3.
Proof.
  intros H1 H2 H3.
  assert (Hlow : forall b n, 0 <= b < 256 -> 8 <= n -> Z.testbit b n = false).
  { intros b n Hb Hn. destruct (Z.eq_dec b 0) as [-> | Hb0].
    - apply Z.bits_0.
    - apply Z.bits_above_log2; [lia |].
      assert (Z.log2 b < 8) by (apply Z.log2_lt_pow2; lia). lia. }
  assert (E12 : Z.lor (Z.shiftl b1 16) (Z.shiftl b2 8) = b1 * 65536 + b2 * 256).
  { rewrite <- Z.lxor_lor, <- Z.add_nocarry_lxor.
    - rewrite !Z.shiftl_mul_pow2 by lia. reflexivity.
    - apply Z.bits_inj'. intros n Hn.
      rewrite Z.land_spec, Z.bits_0, !Z.shiftl_spec by lia.
      destruct (Z_lt_dec n 16).
      + rewrite (Z.testbit_neg_r b1) by lia. reflexivity.
      + rewrite (Hlow b2) by lia. apply andb_false_r.
    - apply Z.bits_inj'. intros n Hn.
      rewrite Z.land_spec, Z.bits_0, !Z.shiftl_spec by lia.
      destruct (Z_lt_dec n 16).
      + rewrite (Z.testbit_neg_r b1) by lia. reflexivity.
      + rewrite (Hlow b2) by lia. apply andb_false_r. }
  rewrite <- Z.lxor_lor, <- Z.add_nocarry_lxor.
  - rewrite E12. reflexivity.
  - apply Z.bits_inj'. intros n Hn.
    rewrite Z.land_spec, Z.lor_spec, Z.bits_0, !Z.shiftl_spec by lia.
    destruct (Z_lt_dec n 8).
    + rewrite (Z.testbit_neg_r b1), (Z.testbit_neg_r b2) by lia. reflexivity.
    + rewrite (Hlow b3) by lia. apply andb_false_r.
  - apply Z.bits_inj'. intros n Hn.
    rewrite Z.land_spec, Z.lor_spec, Z.bits_0, !Z.shiftl_spec by lia.
    destruct (Z_lt_dec n 8).
    + rewrite (Z.testbit_neg_r b1), (Z.testbit_neg_r b2) by lia. reflexivity.
    + rewrite (Hlow b3) by lia. apply andb_false_r.
Qed.

(** ** Relations every step of the engine keeps *)

Section Keeps.

Context {P : Platform}.
Variable R : world -> world -> Prop.
Hypothesis R_refl : forall w, R w w.
Hypothesis R_trans : forall w1 w2 w3, R w1 w2 -> R w2 w3 -> R w1 w3.
Hypothesis R_errno : forall e w, R w (set_errno e w).

Lemma keeps_ret {A : Type} (a : A) : keeps R (ret a).
Proof. intros w. apply R_refl. Qed.

Lemma keeps_bind {A B : Type} (m : M A) (k : A -> M B) :
  keeps R m -> (forall a, keeps R (k a)) -> keeps R (bind m k).
Proof.
  intros Hm Hk w. unfold bind.
  specialize (Hm w). destruct (m w) as [a w1]. cbn in Hm.
  eapply R_trans; [exact Hm | apply Hk].
Qed.

Lemma keeps_sleep (delay_ms : Z) (interrupts : list Z) :
  keeps R (pyvac248ipnative_impl_sleep_ms_ delay_ms interrupts).
Proof.
  induction interrupts as [| e rest IH]; intros w; cbn.
  - apply R_refl.
  - destruct (e =? EINTR).
    + eapply R_trans; [apply (R_errno e) | apply IH].
    + apply R_errno.
Qed.

Lemma keeps_send_command (o : send_env) (ip port command data delay : Z) :
  keeps R (sendto (se_sendto o) ip port (command_buf command data)) ->
  keeps R (pyvac248ipnative_impl_send_command_ o ip port command data delay).
Proof.
  intros Hs. unfold pyvac248ipnative_impl_send_command_.
  apply keeps_bind; [exact Hs |].
  intros r. destruct (r <? 0); [apply keeps_ret | apply keeps_sleep].
Qed.

Lemma keeps_drain (queued : nat) (e : Z) : keeps R (drain_loop queued e).
Proof.
  induction queued as [| n IH]; intros w; cbn.
  - apply R_errno.
  - apply IH.
Qed.

Lemma keeps_drop_packets (o : drop_env) (delay : Z) :
  keeps R (pyvac248ipnative_impl_drop_packets_ o delay).
Proof.
  unfold pyvac248ipnative_impl_drop_packets_.
  apply keeps_bind; [apply keeps_sleep | intros _].
  apply keeps_bind; [apply keeps_drain | intros _].
  intros w. apply R_refl.
Qed.

Lemma keeps_poll (ev : arrival) : keeps R (poll ev).
Proof.
  intros w. unfold poll. cbn.
  destruct (poll_res ev <? 0); [apply R_errno | apply R_refl].
Qed.

Lemma keeps_recvfrom (ev : arrival) (p len : Z) (m : mem) :
  keeps R (recvfrom ev p len m).
Proof.
  intros w. unfold recvfrom.
  destruct (recvfrom_res ev <? 0); cbn; [apply R_errno | apply R_refl].
Qed.

Lemma keeps_loop_body (a : capture_args) (ev : arrival) (st : loop_state) :
  keeps R (loop_body a ev st).
Proof.
  unfold loop_body.
  apply keeps_bind; [apply keeps_poll | intros r].
  destruct (r =? 1).
  - apply keeps_bind; [apply keeps_recvfrom | intros [n m]].
    repeat match goal with
           | |- keeps R (if ?c then _ else _) => destruct c
           | |- keeps R (ret _) => apply keeps_ret
           end;
      intros w; apply R_refl.
  - destruct (r =? 0); [apply keeps_ret | intros w; apply R_refl].
Qed.

Lemma keeps_capture_loop (a : capture_args) (evs : list arrival) (st : loop_state) :
  keeps R (capture_loop a evs st).
Proof.
  revert st. induction evs as [| ev evs IH]; intros st; cbn.
  - destruct (packets_received_ st <? dst_size a); apply keeps_ret.
  - destruct (packets_received_ st <? dst_size a); [| apply keeps_ret].
    apply keeps_bind; [apply keeps_loop_body |].
    intros [st' | st']; [apply IH | apply keeps_ret].
Qed.

End Keeps.

(** ** The socket options between the system calls that set them *)

Lemma same_sock_refl (w : world) : same_sock w w.
Proof. reflexivity. Qed.

Lemma same_sock_trans (w1 w2 w3 : world) :
  same_sock w1 w2 -> same_sock w2 w3 -> same_sock w1 w3.
Proof. unfold same_sock. congruence. Qed.

Lemma same_sock_errno (e : Z) (w : world) : same_sock w (set_errno e w).
Proof. reflexivity. Qed.

Lemma same_sock_sendto (o : outcome) (ip port : Z) (buf : list Z) :
  keeps same_sock (sendto o ip port buf).
Proof. intros w. destruct o; reflexivity. Qed.

(** ** The datagrams put on the wire *)

Lemma sent_only_refl (ok : list Z -> Prop) (w : world) : sent_only ok w w.
Proof. exists []. split; [symmetry; apply app_nil_r | constructor]. Qed.

Lemma sent_only_trans (ok : list Z -> Prop) (w1 w2 w3 : world) :
  sent_only ok w1 w2 -> sent_only ok w2 w3 -> sent_only ok w1 w3.
Proof.
  intros [l1 [E1 F1]] [l2 [E2 F2]]. exists (l1 ++ l2). split.
  - rewrite E2, E1. symmetry. apply app_assoc.
  - apply Forall_app. split; assumption.
Qed.

Lemma sent_only_errno (ok : list Z -> Prop) (e : Z) (w : world) :
  sent_only ok w (set_errno e w).
Proof. exists []. split; [cbn; symmetry; apply app_nil_r | constructor]. Qed.

Lemma sent_only_sock (ok : list Z -> Prop) (s : socket) (w : world) :
  sent_only ok w (set_sock s w).
Proof. exists []. split; [cbn; symmetry; apply app_nil_r | constructor]. Qed.

Lemma sent_only_sendto (ok : list Z -> Prop) (o : outcome) (ip port : Z) (buf : list Z) :
  ok buf -> keeps (sent_only ok) (sendto o ip port buf).
Proof.
  intros Hok w. destruct o as [| e]; cbn.
  - exists [{| sd_ip := ip; sd_port := port; sd_bytes := buf |}].
    split; [reflexivity | repeat constructor; exact Hok].
  - apply sent_only_errno.
Qed.

(** The bytes of [buf] are the low bytes of the two arguments and of
    their sum. *)
Lemma command_buf_layout (command data : Z) :
  command_buf command data = command_datagram (command mod 256) (data mod 256).
Proof.
  unfold command_buf, command_datagram.
  rewrite low_byte_uint, !low_byte.
  rewrite <- Z.add_mod by lia. reflexivity.
Qed.

Lemma start_buf_layout (format : Z) :
  0 <= format < 256 ->
  command_buf 0x5a (to_uint (Z.lor format 0x80))
  = command_datagram 0x5a (Z.lor format 0x80).
Proof.
  intros Hf. pose proof (lor_0x80_byte format Hf) as Hb.
  rewrite command_buf_layout. unfold to_uint.
  rewrite (Z.mod_small (Z.lor format 0x80) (2 ^ 32)) by lia.
  rewrite (Z.mod_small (Z.lor format 0x80) 256) by lia.
  reflexivity.
Qed.

Lemma exposure_buf_layout (value : Z) :
  0 <= value < 256 ->
  command_buf 0xc0 (to_uint value) = command_datagram 0xc0 value.
Proof.
  intros Hv. rewrite command_buf_layout. unfold to_uint.
  rewrite (Z.mod_small value (2 ^ 32)) by lia.
  rewrite (Z.mod_small value 256) by lia.
  reflexivity.
Qed.

Section Commands.

Context {P : Platform}.

Lemma sent_only_capture (a : capture_args) (e : env) (dst0 : mem) (packets_received0 : Z) :
  0 <= video_format a < 256 -> 0 <= exposure a < 256 ->
  keeps (sent_only (is_command a))
        (pyvac248ipnative_capture_packets a e dst0 packets_received0).
Proof.
  intros Hf He.
  pose proof (sent_only_refl (is_command a)) as Rr.
  pose proof (sent_only_trans (is_command a)) as Rt.
  pose proof (sent_only_errno (is_command a)) as Re.
  assert (Hstop : forall o, keeps (sent_only (is_command a))
            (pyvac248ipnative_impl_send_command_stop_ o (camera_ip a) (camera_port a)
               (send_command_delay_ms a))).
  { intros o. apply keeps_send_command; try assumption.
    apply sent_only_sendto. left. apply (command_buf_layout 0x5a 0). }
  assert (Hset : forall o fl, keeps (sent_only (is_command a)) (fcntl_setfl o fl)).
  { intros o fl w. destruct o; [apply sent_only_sock | apply Re]. }
  unfold pyvac248ipnative_capture_packets.
  apply keeps_bind; try assumption.
  { intros w. destruct (env_getfl e); [apply Rr | apply Re]. }
  intros before. destruct (before <? 0); [apply keeps_ret; assumption |].
  apply keeps_bind; try assumption.
  { destruct (negb _); [apply Hset | apply keeps_ret; assumption]. }
  intros r. destruct (r <? 0); [apply keeps_ret; assumption |].
  apply keeps_bind; try assumption; [apply Hstop | intros _].
  apply keeps_bind; try assumption; [apply keeps_drop_packets; assumption | intros _].
  apply keeps_bind; try assumption.
  { apply keeps_send_command; try assumption.
    apply sent_only_sendto. right. left. apply start_buf_layout. exact Hf. }
  intros _. apply keeps_bind; try assumption.
  { apply keeps_send_command; try assumption.
    apply sent_only_sendto. right. right. apply exposure_buf_layout. exact He. }
  intros _. apply keeps_bind; try assumption.
  { apply keeps_capture_loop; assumption. }
  intros [st | st]; [| apply keeps_ret; assumption].
  apply keeps_bind; try assumption; [| intros ?; apply keeps_ret; assumption].
  unfold after_loop.
  apply keeps_bind; try assumption; [apply Hstop | intros _].
  apply keeps_bind; try assumption; [apply keeps_sleep; assumption | intros _].
  apply keeps_bind; try assumption; [apply keeps_drop_packets; assumption | intros _].
  apply keeps_bind; try assumption.
  - unfold restore_socket. destruct (negb _); [| apply keeps_ret; assumption].
    apply keeps_bind; try assumption; [apply Hset | intros r1].
    destruct (r1 <? 0); [apply keeps_ret; assumption |].
    apply keeps_bind; try assumption; try (intros ?; apply keeps_ret; assumption).
    unfold pyvac248ipnative_impl_set_socket_timeout_.
    apply keeps_bind; try assumption.
    { intros w. destruct (env_rcvtimeo e); [apply sent_only_sock | apply Re]. }
    intros r2. destruct (r2 <? 0); [apply keeps_ret; assumption |].
    apply keeps_bind; try assumption.
    { intros w. destruct (env_sndtimeo e); [apply sent_only_sock | apply Re]. }
    intros r3. destruct (r3 <? 0); apply keeps_ret; assumption.
  - intros failed w. unfold set_output. cbv zeta.
    match goal with |- context [if ?c then (_, set_errno _ _) else _] => destruct c end;
      [apply Re | apply Rr].
Qed.

End Commands.

(** ** Init: the packet-type bytes *)

Lemma init_markers_loop_spec (fuel : nat) :
  forall (p dst_size : Z) (m : mem) (q : Z),
    dst_size - p <= Z.of_nat fuel ->
    init_markers_loop fuel p dst_size m q
    = if (p <=? q) && (q <? dst_size) && ((q - p) mod 1473 =? 0) then 0 else m q.
Proof.
  induction fuel as [| fuel IH]; intros p dst_size m q Hfuel.
  - cbn [init_markers_loop].
    destruct (p <=? q) eqn:E1; destruct (q <? dst_size) eqn:E2; cbn; try reflexivity.
    apply Z.leb_le in E1. apply Z.ltb_lt in E2. lia.
  - cbn [init_markers_loop].
    change (PYVAC248IPNATIVE_IMPL_DATA_PACKET_SIZE_ + 1) with 1473.
    destruct (p <? dst_size) eqn:Ep.
    + apply Z.ltb_lt in Ep. rewrite IH by lia.
      replace (q - (p + 1473)) with (q - p + (-1) * 1473) by lia.
      rewrite Z.mod_add by lia.
      unfold store.
      pose proof (Z.div_mod (q - p) 1473 ltac:(lia)) as Hdm.
      destruct (Z.eqb_spec q p) as [-> | Hqp].
      * replace (p - p) with 0 by lia. cbn.
        destruct (p + 1473 <=? p) eqn:E1; [apply Z.leb_le in E1; lia |].
        destruct (p <=? p) eqn:E2; [| apply Z.leb_gt in E2; lia].
        destruct (p <? dst_size) eqn:E3; [| apply Z.ltb_ge in E3; lia].
        reflexivity.
      * destruct (Z.eqb_spec ((q - p) mod 1473) 0) as [E0 | E0].
        -- rewrite !andb_true_r.
           destruct (p + 1473 <=? q) eqn:E1; destruct (p <=? q) eqn:E2;
             try reflexivity.
           ++ apply Z.leb_le in E1. apply Z.leb_gt in E2. lia.
           ++ apply Z.leb_gt in E1. apply Z.leb_le in E2.
              destruct (q <? dst_size); cbn; [| reflexivity].
              exfalso. lia.
        -- rewrite !andb_false_r. reflexivity.
    + apply Z.ltb_ge in Ep.
      destruct (p <=? q) eqn:E1; destruct (q <? dst_size) eqn:E2; cbn; try reflexivity.
      apply Z.leb_le in E1. apply Z.ltb_lt in E2. lia.
Qed.

(** What lines 149-152 do: the bytes they clear are the multiples of 1473
    below [dst_size], and no other byte changes. *)
Lemma init_markers_spec (dst_size : Z) (m : mem) (q : Z) :
  init_markers dst_size m q
  = if (0 <=? q) && (q <? dst_size) && (q mod 1473 =? 0) then 0 else m q.
Proof.
  unfold init_markers. rewrite init_markers_loop_spec by lia.
  rewrite Z.sub_0_r. reflexivity.
Qed.

(** A slot whose packet-type byte lies at or beyond offset [dst_size] keeps
    the byte it had. *)
Lemma init_markers_beyond (dst_size : Z) (m : mem) (i : Z) :
  dst_size <= i * 1473 -> init_markers dst_size m (i * 1473) = m (i * 1473).
Proof.
  intros Hi. rewrite init_markers_spec.
  destruct (i * 1473 <? dst_size) eqn:E; [apply Z.ltb_lt in E; lia |].
  rewrite andb_false_r. reflexivity.
Qed.

(** ** One round of the receive loop *)

Lemma stored_byte (p n : Z) (bytes : list Z) (m : mem) (j : Z) :
  0 <= j < n ->
  store_bytes p n bytes m (p + j) = to_uchar (nth (Z.to_nat j) bytes 0).
Proof.
  intros Hj. unfold store_bytes.
  destruct (p <=? p + j) eqn:E1; [| apply Z.leb_gt in E1; lia].
  destruct (p + j <? p + n) eqn:E2; [| apply Z.ltb_ge in E2; lia].
  cbn. replace (p + j - p) with j by lia. reflexivity.
Qed.

Lemma stored_elsewhere (p n : Z) (bytes : list Z) (m : mem) (q : Z) :
  q < p \/ p + n <= q -> store_bytes p n bytes m q = m q.
Proof.
  intros Hq. unfold store_bytes.
  destruct (p <=? q) eqn:E1; destruct (q <? p + n) eqn:E2; cbn; try reflexivity.
  apply Z.leb_le in E1. apply Z.ltb_lt in E2. lia.
Qed.

(** The header the loop reads back from the slot is the header of the
    datagram. *)
Lemma stored_header (p : Z) (ev : arrival) (m : mem) :
  let m' := store_bytes p 1472 (payload ev) m in
  m' p = frame_number_of ev
  /\ Z.lor (Z.lor (Z.shiftl (m' (p + 1)) 16) (Z.shiftl (m' (p + 2)) 8)) (m' (p + 3))
     = pixel_offset_of ev.
Proof.
  cbv zeta. split.
  - replace p with (p + 0) at 2 by lia. rewrite stored_byte by lia. reflexivity.
  - rewrite !stored_byte by lia.
    rewrite be24_value by apply to_uchar_range. reflexivity.
Qed.

Lemma with_dst_same (st : loop_state) : with_dst (dst st) st = st.
Proof. destruct st. reflexivity. Qed.

Section Round.

Variable a : capture_args.

Lemma loop_body_data (ev : arrival) (st : loop_state) (w : world) :
  received 1472 ev -> s_addr ev = camera_ip a ->
  loop_body a ev st w
  = (let st1 := with_incorrect 0 (after_recv ev st) in
     if (frame_number_of ev =? 0)
        || (pixel_offset_of ev >? to_int (1468 * to_int (frame_packets a - 1)))
        || negb (Z.rem (pixel_offset_of ev) 1468 =? 0)
     then Continue st1
     else if frame_number_of ev >? frames a then Break (with_result 0 st1)
     else Continue (with_received (to_int (packets_received_ st + 1)) st1), w).
Proof.
  intros [Hp Hr] Ha. unfold loop_body, bind, poll, recvfrom, after_recv.
  rewrite Hp, Hr, Ha.
  change PYVAC248IPNATIVE_IMPL_DATA_PACKET_SIZE_ with 1472.
  rewrite (Z.eqb_refl (camera_ip a)).
  change (1 <? 0) with false. change (1 =? 1) with true.
  change (1472 <? 0) with false.
  change (Z.min 1472 1472) with 1472.
  change (1472 =? 1472) with true.
  change (1472 + 1) with 1473. change (1472 - 4) with 1468.
  cbv beta iota zeta. cbn [negb dst with_dst with_incorrect packets_received_].
  fold (slot_payload st).
  destruct (stored_header (slot_payload st) ev (dst st)) as [Ef Eo].
  cbv zeta in Ef, Eo. rewrite Ef, Eo.
  destruct (_ || _ || _); [reflexivity |].
  destruct (_ >? _); reflexivity.
Qed.

Lemma loop_body_config (ev : arrival) (st : loop_state) (w : world) :
  received 48 ev -> s_addr ev = camera_ip a ->
  loop_body a ev st w
  = (let st1 := after_recv ev st in
     let st2 := with_incorrect 0 (with_dst (store (slot_payload st - 1) 1 (dst st1)) st1) in
     Continue (with_received (to_int (packets_received_ st + 1)) st2), w).
Proof.
  intros [Hp Hr] Ha. unfold loop_body, bind, poll, recvfrom, after_recv.
  rewrite Hp, Hr, Ha, (Z.eqb_refl (camera_ip a)).
  change PYVAC248IPNATIVE_IMPL_DATA_PACKET_SIZE_ with 1472.
  change PYVAC248IPNATIVE_IMPL_CONFIG_PACKET_SIZE_ with 48.
  change (1472 + 1) with 1473.
  unfold slot_payload. rewrite Z.add_simpl_r.
  reflexivity.
Qed.

Lemma loop_body_foreign (ev : arrival) (st : loop_state) (w : world) :
  received 1472 ev \/ received 48 ev -> s_addr ev <> camera_ip a ->
  loop_body a ev st w = (Continue (after_recv ev st), w).
Proof.
  intros Hr Ha. apply Z.eqb_neq in Ha.
  unfold loop_body, bind, poll, recvfrom, after_recv.
  destruct Hr as [[Hp Hr] | [Hp Hr]]; rewrite Hp, Hr, Ha; reflexivity.
Qed.

Lemma loop_body_malformed (ev : arrival) (st : loop_state) (w : world) :
  malformed ev ->
  loop_body a ev st w
  = (let st1 :=
       with_incorrect (to_int (incorrect_packets_length st + 1)) (after_recv ev st) in
     if incorrect_packets_length st1 >? max_incorrect_length_packets a
     then Break (with_result 2 st1) else Continue st1, w).
Proof.
  intros (Hp & H0 & H1 & H2).
  unfold loop_body, bind, poll, recvfrom, after_recv. rewrite Hp.
  change (1 <? 0) with false. change (1 =? 1) with true. cbv beta iota zeta.
  apply Z.ltb_ge in H0. apply Z.eqb_neq in H1, H2. rewrite H0.
  cbv beta iota zeta. rewrite H0, H1, H2.
  cbn [incorrect_packets_length with_dst with_incorrect].
  destruct (_ >? _); reflexivity.
Qed.

Lemma loop_body_timeout (ev : arrival) (st : loop_state) (w : world) :
  poll_res ev = 0 -> loop_body a ev st w = (Break (with_result 1 st), w).
Proof.
  intros Hp. unfold loop_body, bind, poll. rewrite Hp. reflexivity.
Qed.


Lemma loop_body_recvfrom_fails (ev : arrival) (st : loop_state) (w : world) :
  poll_res ev = 1 -> recvfrom_res ev < 0 ->
  loop_body a ev st w
  = (Break (with_errno_ (recvfrom_errno ev) (with_result (-1) st)),
     set_errno (recvfrom_errno ev) w).
Proof.
  intros Hp Hr. unfold loop_body, bind, poll, recvfrom. rewrite Hp.
  apply Z.ltb_lt in Hr.
  change (1 <? 0) with false. change (1 =? 1) with true. cbv beta iota zeta.
  rewrite Hr. cbv beta iota zeta. rewrite Hr, with_dst_same. reflexivity.
Qed.

Lemma capture_loop_cons (ev : arrival) (evs : list arrival) (st : loop_state) (w : world) :
  packets_received_ st < dst_size a ->
  capture_loop a (ev :: evs) st w
  = let (s, w') := loop_body a ev st w in
    match s with
    | Break st' => (Left_loop st', w')
    | Continue st' => capture_loop a evs st' w'
    end.
Proof.
  intros Hn. apply Z.ltb_lt in Hn. cbn [capture_loop]. rewrite Hn.
  unfold bind. destruct (loop_body a ev st w) as [[st' | st'] w']; reflexivity.
Qed.

Lemma capture_loop_nil (st : loop_state) (w : world) :
  packets_received_ st < dst_size a ->
  capture_loop a [] st w = (Still_receiving st, w).
Proof.
  intros Hn. apply Z.ltb_lt in Hn. cbn [capture_loop]. rewrite Hn. reflexivity.
Qed.

Lemma capture_loop_full (evs : list arrival) (st : loop_state) (w : world) :
  dst_size a <= packets_received_ st ->
  capture_loop a evs st w = (Left_loop st, w).
Proof.
  intros Hn. apply Z.ltb_ge in Hn. destruct evs; cbn [capture_loop]; rewrite Hn; reflexivity.
Qed.

End Round.

(** ** The receive loop *)

Section Receiving.

Variable a : capture_args.

Lemma filter_bound :
  INT_MIN <= 1468 * (frame_packets a - 1) <= INT_MAX ->
  to_int (1468 * to_int (frame_packets a - 1)) = 1468 * (frame_packets a - 1).
Proof.
  intros Hr. rewrite (to_int_in_range (frame_packets a - 1)).
  - apply to_int_in_range. exact Hr.
  - unfold INT_MIN, INT_MAX in *. lia.
Qed.

Lemma pixel_offset_nonneg (ev : arrival) : 0 <= pixel_offset_of ev.
Proof.
  unfold pixel_offset_of.
  pose proof (to_uchar_range (nth 1 (payload ev) 0)).
  pose proof (to_uchar_range (nth 2 (payload ev) 0)).
  pose proof (to_uchar_range (nth 3 (payload ev) 0)).
  lia.
Qed.

Lemma loop_body_discarded (ev : arrival) (st : loop_state) (w : world) :
  INT_MIN <= 1468 * (frame_packets a - 1) <= INT_MAX ->
  discarded a ev ->
  loop_body a ev st w = (Continue (with_incorrect 0 (after_recv ev st)), w).
Proof.
  intros Hr (Hrecv & Ha & Hd).
  rewrite loop_body_data by assumption. cbv zeta. rewrite (filter_bound Hr).
  pose proof (pixel_offset_nonneg ev) as H0.
  destruct Hd as [Hd | [Hd | Hd]].
  - apply Z.eqb_eq in Hd. rewrite Hd. reflexivity.
  - apply Z.gtb_gt in Hd. rewrite Hd, orb_true_r. reflexivity.
  - rewrite Z.rem_mod_nonneg by lia.
    apply Z.eqb_neq in Hd. rewrite Hd. cbn. rewrite orb_true_r. reflexivity.
Qed.


Lemma malformed_run (evs : list arrival) :
  forall (rest : list arrival) (st : loop_state) (w : world),
    Forall malformed evs ->
    packets_received_ st < dst_size a ->
    0 <= incorrect_packets_length st ->
    incorrect_packets_length st + Z.of_nat (length evs) <= max_incorrect_length_packets a ->
    max_incorrect_length_packets a < INT_MAX ->
    exists st',
      capture_loop a (evs ++ rest) st w = capture_loop a rest st' w
      /\ packets_received_ st' = packets_received_ st
      /\ incorrect_packets_length st'
         = incorrect_packets_length st + Z.of_nat (length evs)
      /\ result st' = result st.
Proof.
  induction evs as [| ev evs IH]; intros rest st w Hall Hn H0 Hle Hmax.
  - exists st. cbn. repeat split; lia.
  - inversion Hall as [| ev' evs' Hev Hevs]; subst.
    cbn [length] in Hle. rewrite Nat2Z.inj_succ in Hle.
    cbn [app]. rewrite capture_loop_cons by exact Hn.
    rewrite loop_body_malformed by exact Hev. cbv zeta.
    cbn [incorrect_packets_length with_incorrect].
    rewrite to_int_in_range by (unfold INT_MIN, INT_MAX in *; lia).
    destruct (Z.gtb_spec (incorrect_packets_length st + 1)
                (max_incorrect_length_packets a)) as [E | _]; [lia |].
    destruct (IH rest
                (with_incorrect (incorrect_packets_length st + 1) (after_recv ev st)) w)
      as (st' & E & Hp & Hi & Hres); try assumption; cbn; try lia.
    exists st'. rewrite E. cbn in Hp, Hi, Hres.
    repeat split; try assumption; cbn [length]; lia.
Qed.

(** C6.  While the loop is receiving with a malformed-run counter of 0,
    [max_incorrect_length_packets + 1] received datagrams in a row whose
    length is neither 1472 nor 48, whoever sent them, make the loop end
    with result 2 (TooManyMalformed); [packets_received_] is what it was
    before the run.  The threshold is a count below [INT_MAX]. *)
Theorem too_many_malformed (evs rest : list arrival) (st : loop_state) (w : world) :
  0 <= max_incorrect_length_packets a < INT_MAX ->
  packets_received_ st < dst_size a ->
  incorrect_packets_length st = 0 ->
  Forall malformed evs ->
  Z.of_nat (length evs) = max_incorrect_length_packets a + 1 ->
  left_with (fst (capture_loop a (evs ++ rest) st w)) = Some (2, packets_received_ st).
Proof.
  intros Hmax Hn H0 Hall Hlen.
  destruct (exists_last (l := evs)) as (run & ev & ->).
  { intros ->. cbn in Hlen. lia. }
  apply Forall_app in Hall. destruct Hall as [Hrun Hev].
  inversion Hev as [| ev' l' Hm _]; subst.
  rewrite length_app, Nat2Z.inj_add in Hlen. cbn in Hlen.
  rewrite <- app_assoc.
  destruct (malformed_run run ([ev] ++ rest) st w) as (st' & E & Hp & Hi & _);
    try assumption; try lia.
  rewrite E. cbn [app]. rewrite capture_loop_cons by lia.
  rewrite loop_body_malformed by exact Hm. cbv zeta.
  cbn [incorrect_packets_length with_incorrect].
  rewrite to_int_in_range by (unfold INT_MIN, INT_MAX in *; lia).
  destruct (Z.gtb_spec (incorrect_packets_length st' + 1)
              (max_incorrect_length_packets a)) as [_ | E']; [| lia].
  cbn. rewrite Hp. reflexivity.
Qed.

Lemma interleaved_runs (blocks : list (list arrival * arrival)) :
  forall (rest : list arrival) (st : loop_state) (w : world),
    INT_MIN <= 1468 * (frame_packets a - 1) <= INT_MAX ->
    0 <= max_incorrect_length_packets a < INT_MAX ->
    packets_received_ st < dst_size a ->
    incorrect_packets_length st = 0 ->
    Forall (fun b => Forall malformed (fst b)
                     /\ Z.of_nat (length (fst b)) <= max_incorrect_length_packets a
                     /\ discarded a (snd b)) blocks ->
    exists st',
      capture_loop a (interleave blocks ++ rest) st w = capture_loop a rest st' w
      /\ packets_received_ st' = packets_received_ st
      /\ incorrect_packets_length st' = 0
      /\ result st' = result st.
Proof.
  induction blocks as [| [run d] blocks IH]; intros rest st w Hfp Hmax Hn H0 Hall.
  - exists st. cbn. repeat split; assumption.
  - inversion Hall as [| b bs (Hrun & Hlen & Hd) Hbs]; subst. cbn [fst snd] in *.
    cbn [interleave]. rewrite <- app_assoc. cbn [app].
    destruct (malformed_run run (d :: interleave blocks ++ rest) st w)
      as (st1 & E1 & Hp1 & Hi1 & Hr1); try assumption; try lia.
    rewrite E1, capture_loop_cons by lia.
    rewrite loop_body_discarded by assumption.
    destruct (IH rest (with_incorrect 0 (after_recv d st1)) w)
      as (st2 & E2 & Hp2 & Hi2 & Hr2); try assumption; cbn; try lia.
    exists st2. rewrite E2. cbn in Hp2, Hr2.
    repeat split; try assumption; congruence.
Qed.

(** C9.  A received datagram of 1472 or of 48 bytes whose sender is the
    camera leaves the malformed-run counter at 0, whatever the round then
    does with it (discard, accept, or end of capture).  Consequently runs
    of malformed datagrams that stay within the threshold, each followed
    by a discarded camera packet, never end the loop, however many
    malformed datagrams they hold in total: after all of them and a last
    run [tail] the loop still receives, and the counter is the length of
    [tail] alone. *)
Theorem camera_packet_resets_malformed_run
    (ev : arrival) (st : loop_state) (w : world)
    (blocks : list (list arrival * arrival)) (tail : list arrival) (st0 : loop_state) :
  (received 1472 ev \/ received 48 ev) -> s_addr ev = camera_ip a ->
  INT_MIN <= 1468 * (frame_packets a - 1) <= INT_MAX ->
  0 <= max_incorrect_length_packets a < INT_MAX ->
  packets_received_ st0 < dst_size a ->
  incorrect_packets_length st0 = 0 ->
  Forall (fun b => Forall malformed (fst b)
                   /\ Z.of_nat (length (fst b)) <= max_incorrect_length_packets a
                   /\ discarded a (snd b)) blocks ->
  Forall malformed tail ->
  Z.of_nat (length tail) <= max_incorrect_length_packets a ->
  incorrect_packets_length (state_of (fst (loop_body a ev st w))) = 0
  /\ exists st',
       capture_loop a (interleave blocks ++ tail) st0 w = (Still_receiving st', w)
       /\ packets_received_ st' = packets_received_ st0
       /\ incorrect_packets_length st' = Z.of_nat (length tail).
Proof.
  intros Hrecv Ha Hfp Hmax Hn H0 Hall Htail Hlen. split.
  - destruct Hrecv as [Hrecv | Hrecv].
    + rewrite loop_body_data by assumption. cbv zeta.
      destruct (_ || _ || _); [reflexivity |].
      destruct (_ >? _); reflexivity.
    + rewrite loop_body_config by assumption. reflexivity.
  - destruct (interleaved_runs blocks tail st0 w)
      as (st1 & E1 & Hp1 & Hi1 & _); try assumption.
    rewrite E1.
    destruct (malformed_run tail [] st1 w) as (st2 & E2 & Hp2 & Hi2 & _);
      try assumption; try lia.
    rewrite app_nil_r in E2. rewrite E2, capture_loop_nil by lia.
    exists st2. repeat split; lia.
Qed.

(** C3, as the code has it.  A 1472-byte datagram of the camera with
    frame number 0 is not counted and the loop goes on; no packet-type
    byte changes and no byte outside the payload region of the next free
    slot changes.  The payload region of that slot, which stays free,
    holds the bytes of the datagram afterwards: [recvfrom] has copied
    them there before the header was looked at. *)
Theorem sentinel_packet_not_counted (ev : arrival) (st : loop_state) (w : world) :
  received 1472 ev -> s_addr ev = camera_ip a -> frame_number_of ev = 0 ->
  0 <= packets_received_ st -> packets_received_ st * 1473 <= INT_MAX ->
  exists st',
    loop_body a ev st w = (Continue st', w)
    /\ packets_received_ st' = packets_received_ st
    /\ (forall i, dst st' (i * 1473) = dst st (i * 1473))
    /\ (forall q, q < packets_received_ st * 1473 + 1
                  \/ packets_received_ st * 1473 + 1473 <= q ->
                  dst st' q = dst st q)
    /\ (forall j, 0 <= j < 1472 ->
                  dst st' (packets_received_ st * 1473 + 1 + j)
                  = to_uchar (nth (Z.to_nat j) (payload ev) 0)).
Proof.
  intros Hrecv Ha Hf Hn0 Hn.
  exists (with_incorrect 0 (after_recv ev st)).
  assert (Hp : slot_payload st = packets_received_ st * 1473 + 1).
  { unfold slot_payload. rewrite to_int_in_range; [reflexivity |].
    unfold INT_MIN. lia. }
  destruct Hrecv as [Hpoll Hlen].
  split; [| split; [| split; [| split]]].
  - rewrite loop_body_data by (try split; assumption). cbv zeta.
    apply Z.eqb_eq in Hf. rewrite Hf. reflexivity.
  - reflexivity.
  - intros i. cbn. rewrite Hp, Hlen. apply stored_elsewhere. cbn. lia.
  - intros q Hq. cbn. rewrite Hp, Hlen. apply stored_elsewhere. cbn. lia.
  - intros j Hj. cbn. rewrite Hp, Hlen. apply stored_byte. cbn. lia.
Qed.
End Receiving.

(** ** The call as a whole *)

Section Call.

Context {P : Platform}.
Variable a : capture_args.
Variable e : env.

Lemma sock_eta (s : socket) :
  {| so_flags := so_flags s; so_rcvtimeo := so_rcvtimeo s; so_sndtimeo := so_sndtimeo s |} = s.
Proof. destruct s. reflexivity. Qed.

Lemma restore_socket_skipped (flags : Z) (w : world) :
  restore_socket a e flags flags w = (false, w).
Proof. unfold restore_socket. rewrite Z.eqb_refl. reflexivity. Qed.

Lemma restore_socket_spec (before required : Z) (w : world) :
  required <> before ->
  exists w',
    restore_socket a e before required w
    = (match restoration_failure e with Some _ => true | None => false end, w')
    /\ match restoration_failure e with
       | Some c => w_errno w' = c
       | None => w_errno w' = w_errno w /\ w_sock w' = restored a before
       end.
Proof.
  intros Hne. apply Z.eqb_neq in Hne.
  unfold restore_socket, restoration_failure, bind,
    pyvac248ipnative_impl_set_socket_timeout_, restored.
  rewrite Hne. cbn [negb].
  destruct (env_restore_setfl e), (env_rcvtimeo e), (env_sndtimeo e);
    cbn; eexists; split; try reflexivity; cbn; auto.
Qed.

Lemma after_loop_spec (before required : Z) (st : loop_state) (w : world) :
  exists w1,
    same_sock w w1
    /\ after_loop a e before required st w
       = let (failed, w2) := restore_socket a e before required w1 in
         set_output st failed w2.
Proof.
  unfold after_loop, bind.
  pose proof (keeps_send_command same_sock same_sock_refl same_sock_trans same_sock_errno
                (env_stop2 e) (camera_ip a) (camera_port a) 0x5a 0x00
                (send_command_delay_ms a) (same_sock_sendto _ _ _ _) w) as H1.
  fold (pyvac248ipnative_impl_send_command_stop_ (env_stop2 e) (camera_ip a)
          (camera_port a) (send_command_delay_ms a)) in H1.
  destruct (pyvac248ipnative_impl_send_command_stop_ _ _ _ _ w) as [r1 w1]. cbn in H1.
  pose proof (keeps_sleep same_sock same_sock_refl same_sock_trans same_sock_errno
                (get_frame_delay_ms a) (env_settle e) w1) as H2.
  destruct (pyvac248ipnative_impl_sleep_ms_ _ _ w1) as [r2 w2]. cbn in H2.
  pose proof (keeps_drop_packets same_sock same_sock_refl same_sock_trans same_sock_errno
                (env_drop2 e) (drop_packets_delay_ms a) w2) as H3.
  destruct (pyvac248ipnative_impl_drop_packets_ _ _ w2) as [r3 w3]. cbn in H3.
  exists w3. split; [| reflexivity].
  unfold same_sock in *. congruence.
Qed.


Lemma capture_early (dst0 : mem) (packets_received0 : Z) (w : world) :
  (exists c, env_getfl e = Fails c)
  \/ so_flags (w_sock w) < 0
  \/ (Z.lor (so_flags (w_sock w)) O_NONBLOCK <> so_flags (w_sock w)
      /\ exists c, env_setfl e = Fails c) ->
  fst (pyvac248ipnative_capture_packets a e dst0 packets_received0 w)
  = Some {| status := -1; packets_received := packets_received0; buffer := dst0 |}.
Proof.
  intros H. unfold pyvac248ipnative_capture_packets, bind, fcntl_getfl.
  destruct (env_getfl e) as [| c0] eqn:Eg; [| reflexivity].
  destruct (so_flags (w_sock w) <? 0) eqn:Elt; [reflexivity |].
  apply Z.ltb_ge in Elt.
  destruct H as [[c Hc] | [Hneg | [Hne [c Hc]]]]; [discriminate | lia |].
  apply Z.eqb_neq in Hne. rewrite Hne, Hc. reflexivity.
Qed.

Lemma capture_past_init (dst0 : mem) (packets_received0 : Z) (w : world) :
  env_getfl e = Succeeds ->
  0 <= so_flags (w_sock w) ->
  (Z.lor (so_flags (w_sock w)) O_NONBLOCK <> so_flags (w_sock w) ->
   env_setfl e = Succeeds) ->
  exists w1,
    same_sock (nonblocking w) w1
    /\ pyvac248ipnative_capture_packets a e dst0 packets_received0 w
       = let (run, w2) := capture_loop a (env_arrivals e) (entry_state a dst0) w1 in
         match run with
         | Still_receiving _ => (None, w2)
         | Left_loop st =>
             let (r, w3) :=
               after_loop a e (so_flags (w_sock w))
                 (Z.lor (so_flags (w_sock w)) O_NONBLOCK) st w2 in
             (Some r, w3)
         end.
Proof.
  intros Hg Hfl Hs.
  pose proof (fun o c d => keeps_send_command same_sock same_sock_refl same_sock_trans
                same_sock_errno o (camera_ip a) (camera_port a) c d
                (send_command_delay_ms a) (same_sock_sendto _ _ _ _)) as Hsend.
  pose proof (keeps_drop_packets same_sock same_sock_refl same_sock_trans same_sock_errno
                (env_drop1 e) (drop_packets_delay_ms a)) as Hdrop.
  unfold pyvac248ipnative_capture_packets, bind, fcntl_getfl.
  rewrite Hg. apply Z.ltb_ge in Hfl. rewrite Hfl.
  assert (Hinit : exists w0,
            same_sock (nonblocking w) w0
            /\ (if negb (Z.lor (so_flags (w_sock w)) O_NONBLOCK =? so_flags (w_sock w))
                then fcntl_setfl (env_setfl e) (Z.lor (so_flags (w_sock w)) O_NONBLOCK)
                else ret 0) w = (0, w0)).
  { destruct (Z.eqb_spec (Z.lor (so_flags (w_sock w)) O_NONBLOCK) (so_flags (w_sock w)))
      as [E | E]; cbn [negb].
    - exists w. split; [| reflexivity].
      unfold same_sock, nonblocking. cbn. rewrite E. symmetry. apply sock_eta.
    - rewrite (Hs E). exists (nonblocking w). split; reflexivity. }
  destruct Hinit as (w0 & Hw0 & ->). change (0 <? 0) with false. cbv iota.
  unfold pyvac248ipnative_impl_send_command_stop_,
    pyvac248ipnative_impl_send_command_start_,
    pyvac248ipnative_impl_send_command_exposure_.
  pose proof (Hsend (env_stop1 e) 0x5a 0x00 w0) as H1.
  destruct (pyvac248ipnative_impl_send_command_ (env_stop1 e) _ _ _ _ _ w0) as [r1 w1].
  cbn in H1.
  pose proof (Hdrop w1) as H2.
  destruct (pyvac248ipnative_impl_drop_packets_ _ _ w1) as [r2 w2]. cbn in H2.
  pose proof (Hsend (env_start e) 0x5a (to_uint (Z.lor (video_format a) 0x80)) w2) as H3.
  destruct (pyvac248ipnative_impl_send_command_ (env_start e) _ _ _ _ _ w2) as [r3 w3].
  cbn in H3.
  pose proof (Hsend (env_exposure e) 0xc0 (to_uint (exposure a)) w3) as H4.
  destruct (pyvac248ipnative_impl_send_command_ (env_exposure e) _ _ _ _ _ w3) as [r4 w4].
  cbn in H4.
  exists w4. split.
  - unfold same_sock in *. congruence.
  - fold (entry_state a dst0).
    destruct (capture_loop a (env_arrivals e) (entry_state a dst0) w4) as [[st | st] w5];
      [| reflexivity].
    unfold ret. destruct (after_loop _ _ _ _ st w5). reflexivity.
Qed.


Lemma init_succeeds_or_not (dst0 : mem) (packets_received0 : Z) (w : world) :
  init_succeeds e w
  \/ fst (pyvac248ipnative_capture_packets a e dst0 packets_received0 w)
     = Some {| status := -1; packets_received := packets_received0; buffer := dst0 |}.
Proof.
  destruct (env_getfl e) as [| c] eqn:Eg.
  2: { right. apply capture_early. left. exists c. exact Eg. }
  destruct (Z_lt_dec (so_flags (w_sock w)) 0) as [Hneg | Hpos].
  { right. apply capture_early. right. left. exact Hneg. }
  destruct (env_setfl e) as [| c] eqn:Es.
  { left. split; [exact Eg | split; [lia | intros _; exact Es]]. }
  destruct (Z.eq_dec (Z.lor (so_flags (w_sock w)) O_NONBLOCK) (so_flags (w_sock w)))
    as [E | E].
  - left. split; [exact Eg | split; [lia | intros H; contradiction]].
  - right. apply capture_early. right. right. split; [exact E | exists c; exact Es].
Qed.

Lemma set_output_spec (st : loop_state) (failed : bool) (w : world) :
  let (r, w') := set_output st failed w in
  w_sock w' = w_sock w
  /\ status r = (if failed then -1 else result st)
  /\ packets_received r = (if status r =? -1 then 0 else packets_received_ st)
  /\ buffer r = dst st
  /\ w_errno w'
     = if status r =? -1
       then (if failed && (errno_ st =? 0) then w_errno w else errno_ st)
       else w_errno w.
Proof.
  unfold set_output. destruct failed; cbv zeta.
  - cbn [result with_result]. change (-1 =? -1) with true. cbv iota.
    cbn [status with_result result errno_ dst packets_received buffer w_sock set_errno].
    change (-1 =? -1) with true. cbv iota.
    destruct (errno_ st =? 0) eqn:E0; cbn; rewrite ?E0; repeat split; reflexivity.
  - destruct (result st =? -1) eqn:Er; cbn; rewrite Er; repeat split; reflexivity.
Qed.

Lemma capture_anatomy (dst0 : mem) (packets_received0 : Z) (w : world)
    (r : capture_return) (w' : world) :
  init_succeeds e w ->
  pyvac248ipnative_capture_packets a e dst0 packets_received0 w = (Some r, w') ->
  exists st w1 w2 w3 w4 failed,
    capture_loop a (env_arrivals e) (entry_state a dst0) w1 = (Left_loop st, w2)
    /\ same_sock (nonblocking w) w3
    /\ restore_socket a e (so_flags (w_sock w))
         (Z.lor (so_flags (w_sock w)) O_NONBLOCK) w3 = (failed, w4)
    /\ set_output st failed w4 = (r, w').
Proof.
  intros (Hg & Hfl & Hs) Hrun.
  destruct (capture_past_init dst0 packets_received0 w Hg Hfl Hs) as (w1 & Hw1 & E).
  rewrite E in Hrun. clear E.
  pose proof (keeps_capture_loop same_sock same_sock_refl same_sock_trans same_sock_errno
                a (env_arrivals e) (entry_state a dst0) w1) as Hloop.
  destruct (capture_loop a (env_arrivals e) (entry_state a dst0) w1) as [[st | st] w2]
    eqn:El; [| discriminate].
  cbn in Hloop.
  destruct (after_loop_spec (so_flags (w_sock w))
              (Z.lor (so_flags (w_sock w)) O_NONBLOCK) st w2) as (w3 & Hw3 & E).
  rewrite E in Hrun. clear E.
  destruct (restore_socket _ _ _ _ w3) as [failed w4] eqn:Er.
  destruct (set_output st failed w4) as [r0 w0] eqn:Eo.
  injection Hrun as -> ->.
  exists st, w1, w2, w3, w4, failed.
  split; [exact El |]. split; [| split; assumption].
  unfold same_sock in *. congruence.
Qed.

End Call.

(** ** What the caller gets back *)

Section Outcome.

Context {P : Platform}.
Variable a : capture_args.
Variable e : env.



(** C2, as the code has it.  After a call that returns 0 (Success),
    1 (Timeout) or 2 (TooManyMalformed) the blocking-mode flags of the
    socket are the flags it had before the call.  Its receive and send
    timeouts are what they were before the call when the socket was
    already non-blocking on entry; otherwise both are the [timeval] made
    from [network_operation_timeout_ms], whatever they were before. *)
Theorem socket_after_capture (dst0 : mem) (packets_received0 : Z) (w : world)
    (r : capture_return) (w' : world) :
  pyvac248ipnative_capture_packets a e dst0 packets_received0 w = (Some r, w') ->
  status r = 0 \/ status r = 1 \/ status r = 2 ->
  so_flags (w_sock w') = so_flags (w_sock w)
  /\ (Z.lor (so_flags (w_sock w)) O_NONBLOCK = so_flags (w_sock w) ->
      w_sock w' = w_sock w)
  /\ (Z.lor (so_flags (w_sock w)) O_NONBLOCK <> so_flags (w_sock w) ->
      w_sock w' = restored a (so_flags (w_sock w))).
Proof.
  intros Hrun Hst.
  destruct (init_succeeds_or_not a e dst0 packets_received0 w) as [Hinit | Hearly].
  2: { rewrite Hrun in Hearly. cbn in Hearly. injection Hearly as ->. cbn in Hst. lia. }
  destruct (capture_anatomy a e dst0 packets_received0 w r w' Hinit Hrun)
    as (st & w1 & w2 & w3 & w4 & failed & _ & Hw3 & Hres & Hout).
  pose proof (set_output_spec st failed w4) as Hspec. rewrite Hout in Hspec.
  destruct Hspec as (Hsock & Hstatus & _).
  destruct failed; [lia |].
  assert (Hsame : Z.lor (so_flags (w_sock w)) O_NONBLOCK = so_flags (w_sock w) ->
                  w_sock w' = w_sock w).
  { intros E. rewrite E, restore_socket_skipped in Hres. injection Hres as <-.
    rewrite Hsock, Hw3. unfold nonblocking. cbn. rewrite E. apply sock_eta. }
  assert (Hdiff : Z.lor (so_flags (w_sock w)) O_NONBLOCK <> so_flags (w_sock w) ->
                  w_sock w' = restored a (so_flags (w_sock w))).
  { intros E.
    destruct (restore_socket_spec a e (so_flags (w_sock w)) _ w3 E) as (w5 & E5 & H5).
    rewrite E5 in Hres.
    destruct (restoration_failure e); [discriminate |].
    injection Hres as <-. rewrite Hsock. apply H5. }
  split; [| split; assumption].
  destruct (Z.eq_dec (Z.lor (so_flags (w_sock w)) O_NONBLOCK) (so_flags (w_sock w)))
    as [E | E].
  - rewrite (Hsame E). reflexivity.
  - rewrite (Hdiff E). reflexivity.
Qed.

(** C5, as the code has it.  Whenever the receive loop has been left,
    however it ended: if the socket was already non-blocking on entry the
    code after the loop touches neither its flags nor its timeouts; if it
    was not, [F_SETFL] with the original flags and then the two
    [setsockopt] calls with the read timeout are attempted in this order,
    the socket ends with the original flags and that timeout both ways
    when all three succeed, and the returned status is -1 (SystemError)
    when one of them fails, whatever the loop had computed. *)
Theorem shutdown_restores_socket (dst0 : mem) (packets_received0 : Z) (w : world)
    (r : capture_return) (w' : world) :
  init_succeeds e w ->
  pyvac248ipnative_capture_packets a e dst0 packets_received0 w = (Some r, w') ->
  (Z.lor (so_flags (w_sock w)) O_NONBLOCK = so_flags (w_sock w) ->
   w_sock w' = w_sock w)
  /\ (Z.lor (so_flags (w_sock w)) O_NONBLOCK <> so_flags (w_sock w) ->
      match restoration_failure e with
      | None => w_sock w' = restored a (so_flags (w_sock w))
      | Some _ => status r = -1
      end).
Proof.
  intros Hinit Hrun.
  destruct (capture_anatomy a e dst0 packets_received0 w r w' Hinit Hrun)
    as (st & w1 & w2 & w3 & w4 & failed & _ & Hw3 & Hres & Hout).
  pose proof (set_output_spec st failed w4) as Hspec. rewrite Hout in Hspec.
  destruct Hspec as (Hsock & Hstatus & _).
  split; intros E.
  - rewrite E, restore_socket_skipped in Hres. injection Hres as <- <-.
    rewrite Hsock, Hw3. unfold nonblocking. cbn. rewrite E. apply sock_eta.
  - destruct (restore_socket_spec a e (so_flags (w_sock w)) _ w3 E) as (w5 & E5 & H5).
    rewrite E5 in Hres.
    destruct (restoration_failure e); injection Hres as <- <-.
    + exact Hstatus.
    + rewrite Hsock. apply H5.
Qed.





End Outcome.

(** ** Concrete runs *)

(** C1 fails on the code.  With [dst_size = 2] the loop of lines 149-152
    stops as soon as [p] reaches [dst + 2]: it clears the packet-type byte
    of slot 0 and leaves the one of slot 1, at offset 1473, as it was.  In
    a buffer used before, where that byte is 1, a call that accepts two
    data packets returns Success with [packets_received = 2], and slot 1
    holds a data packet of frame 1 under the packet type 1 of a config
    packet. *)
Theorem second_marker_not_cleared :
  (forall m : mem, init_markers 2 m 0 = 0 /\ init_markers 2 m 1473 = m 1473)
  /\ let run :=
       pyvac248ipnative_capture_packets (P := linux) (example_args 2)
         (calm_env example_feed) used_before 0 (example_world 2) in
     option_map status (fst run) = Some 0
     /\ option_map packets_received (fst run) = Some 2
     /\ option_map (fun r => buffer r 1473) (fst run) = Some 1
     /\ option_map (fun r => buffer r 1474) (fst run) = Some 1.
Proof.
  split.
  - intros m. rewrite !init_markers_spec. split; reflexivity.
  - vm_compute. repeat split; reflexivity.
Qed.

(** C7 fails on the code.  When [F_GETFL] fails the function returns -1
    from line 140 without going through lines 267-272: the cell
    [*packets_received], which held 7 here, still holds 7. *)
Theorem early_return_leaves_count :
  let run :=
    pyvac248ipnative_capture_packets (P := linux) (example_args 3)
      bad_descriptor_env zeroed 7 (example_world 2) in
  option_map status (fst run) = Some (-1)
  /\ option_map packets_received (fst run) = Some 7.
Proof. vm_compute. split; reflexivity. Qed.

(** Lines 267-272, which every return after the loop goes through: the
    count handed back is 0 with status -1 and the number of accepted
    packets with any other status. *)
Lemma count_after_loop {P : Platform} (a : capture_args) (e : env) (dst0 : mem)
    (packets_received0 : Z) (w : world) (r : capture_return) (w' : world) :
  init_succeeds e w ->
  pyvac248ipnative_capture_packets a e dst0 packets_received0 w = (Some r, w') ->
  exists st w1 w2,
    capture_loop a (env_arrivals e) (entry_state a dst0) w1 = (Left_loop st, w2)
    /\ packets_received r = if status r =? -1 then 0 else packets_received_ st.
Proof.
  intros Hinit Hrun.
  destruct (capture_anatomy a e dst0 packets_received0 w r w' Hinit Hrun)
    as (st & w1 & w2 & w3 & w4 & failed & Hloop & _ & _ & Hout).
  pose proof (set_output_spec st failed w4) as Hspec. rewrite Hout in Hspec.
  exists st, w1, w2. split; [exact Hloop | apply Hspec].
Qed.

(** C2 fails on the code: a call on a blocking socket with a 5 s timeout
    returns Success with the flags restored, and with both timeouts at
    the 1.5 s of [network_operation_timeout_ms]. *)
Lemma timeouts_not_preserved :
  let w := example_world 2 in
  let run :=
    pyvac248ipnative_capture_packets (P := linux) (example_args 3)
      (calm_env example_feed) zeroed 0 w in
  option_map status (fst run) = Some 0
  /\ so_flags (w_sock (snd run)) = so_flags (w_sock w)
  /\ so_rcvtimeo (w_sock w) = {| tv_sec := 5; tv_usec := 0 |}
  /\ so_rcvtimeo (w_sock (snd run)) = {| tv_sec := 1; tv_usec := 500000 |}
  /\ so_rcvtimeo (w_sock (snd run)) <> so_rcvtimeo (w_sock w)
  /\ so_sndtimeo (w_sock (snd run)) <> so_sndtimeo (w_sock w).
Proof. vm_compute. repeat split; try reflexivity; discriminate. Qed.

(** C3 fails on the code: the round that receives a frame-0 datagram
    leaves its byte 4 (170) at offset 5 of a buffer of zeros, inside the
    payload region of slot 0. *)
Lemma sentinel_bytes_reach_slot :
  let a := example_args 3 in
  let ev := datagram 1472 camera [0; 0; 0; 0; 170] in
  let st := entry_state a zeroed in
  let st' := state_of (fst (loop_body a ev st (example_world 2))) in
  received 1472 ev /\ s_addr ev = camera_ip a /\ frame_number_of ev = 0
  /\ packets_received_ st' = packets_received_ st
  /\ dst st 5 = 0 /\ dst st' 5 = 170.
Proof. vm_compute. repeat split; reflexivity. Qed.


(** C5 fails on the code: on a socket that is already non-blocking
    (flags 2050 = 2 | 2048) the code after the loop does not set the
    timeouts; they stay at 5 s instead of the 1.5 s read timeout. *)
Lemma timeout_not_reapplied :
  let a := example_args 3 in
  let w := example_world 2050 in
  let run :=
    pyvac248ipnative_capture_packets (P := linux) a (calm_env [no_datagram]) zeroed 0 w in
  option_map status (fst run) = Some 1
  /\ timeval_of_ms (network_operation_timeout_ms a) = {| tv_sec := 1; tv_usec := 500000 |}
  /\ so_rcvtimeo (w_sock (snd run)) = {| tv_sec := 5; tv_usec := 0 |}
  /\ so_sndtimeo (w_sock (snd run)) = {| tv_sec := 5; tv_usec := 0 |}
  /\ so_rcvtimeo (w_sock (snd run)) <> timeval_of_ms (network_operation_timeout_ms a).
Proof. vm_compute. repeat split; try reflexivity; discriminate. Qed.

(** ** The theorems at concrete inputs *)

(** Closes a list of facts about concrete arrivals. *)
Ltac concrete_arrivals :=
  repeat constructor; cbn;
  unfold PYVAC248IPNATIVE_IMPL_DATA_PACKET_SIZE_,
    PYVAC248IPNATIVE_IMPL_CONFIG_PACKET_SIZE_;
  lia.

Lemma socket_after_capture_witness :
  let a := example_args 3 in
  let w := example_world 2 in
  let run :=
    pyvac248ipnative_capture_packets (P := linux) a (calm_env example_feed) zeroed 0 w in
  so_flags (w_sock (snd run)) = so_flags (w_sock w)
  /\ (Z.lor (so_flags (w_sock w)) (@O_NONBLOCK linux) = so_flags (w_sock w) ->
      w_sock (snd run) = w_sock w)
  /\ (Z.lor (so_flags (w_sock w)) (@O_NONBLOCK linux) <> so_flags (w_sock w) ->
      w_sock (snd run) = restored a (so_flags (w_sock w))).
Proof.
  cbv zeta.
  apply (socket_after_capture (P := linux) (example_args 3) (calm_env example_feed)
           zeroed 0 (example_world 2)
           (the_return
              (fst (pyvac248ipnative_capture_packets (P := linux) (example_args 3)
                      (calm_env example_feed) zeroed 0 (example_world 2))))).
  - vm_compute. reflexivity.
  - left. vm_compute. reflexivity.
Defined.

Lemma shutdown_restores_socket_witness :
  let a := example_args 3 in
  let e := calm_env [no_datagram] in
  let w := example_world 2 in
  let run := pyvac248ipnative_capture_packets (P := linux) a e zeroed 0 w in
  (Z.lor (so_flags (w_sock w)) (@O_NONBLOCK linux) = so_flags (w_sock w) ->
   w_sock (snd run) = w_sock w)
  /\ (Z.lor (so_flags (w_sock w)) (@O_NONBLOCK linux) <> so_flags (w_sock w) ->
      match restoration_failure e with
      | None => w_sock (snd run) = restored a (so_flags (w_sock w))
      | Some _ => status (the_return (fst run)) = -1
      end).
Proof.
  cbv zeta.
  apply (shutdown_restores_socket (P := linux) (example_args 3) (calm_env [no_datagram])
           zeroed 0 (example_world 2)).
  - split; [reflexivity | split; [cbn; lia | reflexivity]].
  - vm_compute. reflexivity.
Defined.

Lemma sentinel_packet_not_counted_witness :
  let a := example_args 3 in
  let st := entry_state a zeroed in
  let w := example_world 2 in
  exists st',
    loop_body a sentinel st w = (Continue st', w)
    /\ packets_received_ st' = packets_received_ st
    /\ (forall i, dst st' (i * 1473) = dst st (i * 1473))
    /\ (forall q, q < packets_received_ st * 1473 + 1
                  \/ packets_received_ st * 1473 + 1473 <= q ->
                  dst st' q = dst st q)
    /\ (forall j, 0 <= j < 1472 ->
                  dst st' (packets_received_ st * 1473 + 1 + j)
                  = to_uchar (nth (Z.to_nat j) (payload sentinel) 0)).
Proof.
  cbv zeta.
  apply (sentinel_packet_not_counted (example_args 3) sentinel
           (entry_state (example_args 3) zeroed) (example_world 2)).
  - split; reflexivity.
  - reflexivity.
  - reflexivity.
  - cbn. lia.
  - cbn. unfold INT_MAX. lia.
Defined.


Lemma too_many_malformed_witness :
  let a := example_args 3 in
  let st := with_received 1 (entry_state a zeroed) in
  left_with (fst (capture_loop a ([junk; junk; junk] ++ [sentinel]) st (example_world 2)))
  = Some (2, packets_received_ st).
Proof.
  cbv zeta.
  apply (too_many_malformed (example_args 3) [junk; junk; junk] [sentinel]
           (with_received 1 (entry_state (example_args 3) zeroed)) (example_world 2)).
  - cbn. unfold INT_MAX. lia.
  - cbn. lia.
  - reflexivity.
  - concrete_arrivals.
  - reflexivity.
Defined.

Lemma camera_packet_resets_malformed_run_witness :
  let a := example_args 3 in
  let st := with_incorrect 2 (entry_state a zeroed) in
  let st0 := entry_state a zeroed in
  let w := example_world 2 in
  incorrect_packets_length (state_of (fst (loop_body a sentinel st w))) = 0
  /\ exists st',
       capture_loop a (interleave example_blocks ++ [junk]) st0 w = (Still_receiving st', w)
       /\ packets_received_ st' = packets_received_ st0
       /\ incorrect_packets_length st' = Z.of_nat (length [junk]).
Proof.
  cbv zeta.
  apply (camera_packet_resets_malformed_run (example_args 3) sentinel
           (with_incorrect 2 (entry_state (example_args 3) zeroed)) (example_world 2)
           example_blocks [junk] (entry_state (example_args 3) zeroed)).
  - left. split; reflexivity.
  - reflexivity.
  - cbn. unfold INT_MIN, INT_MAX. lia.
  - cbn. unfold INT_MAX. lia.
  - cbn. lia.
  - reflexivity.
  - concrete_arrivals.
  - concrete_arrivals.
  - cbn. lia.
Defined.


(** A run of that kind: [poll] fails with code 4, then [F_SETFL]
    fails with code 9 while the flags are put back; the caller gets -1,
    a count of 0 and [errno = 4]. *)
Example poll_failure_code_surfaces :
  let run :=
    pyvac248ipnative_capture_packets (P := linux) (example_args 3) failing_env zeroed 0
      (example_world 2) in
  option_map status (fst run) = Some (-1)
  /\ option_map packets_received (fst run) = Some 0
  /\ w_errno (snd run) = 4.
Proof. vm_compute. repeat split; reflexivity. Qed.

(** The worked example: with room for three packets, two frames wanted and
    two packets per frame, the feed frame 0 / frame 1 at 0 / frame 1 at
    1468 / frame 3 gives Success with two packets; slot 0 and slot 1 hold
    the two frame-1 datagrams, and the payload region of slot 2 holds the
    frame-3 datagram that ended the capture. *)
Example worked_example :
  let run :=
    pyvac248ipnative_capture_packets (P := linux) (example_args 3)
      (calm_env example_feed) zeroed 0 (example_world 2) in
  option_map status (fst run) = Some 0
  /\ option_map packets_received (fst run) = Some 2
  /\ option_map (fun r => map (buffer r) [0; 1; 5]) (fst run) = Some [0; 1; 171]
  /\ option_map (fun r => map (buffer r) [1473; 1474; 1476; 1477; 1478]) (fst run)
     = Some [0; 1; 5; 188; 172]
  /\ option_map (fun r => map (buffer r) [2946; 2947; 2951]) (fst run)
     = Some [0; 3; 173]
  /\ map sd_bytes (w_sent (snd run))
     = [ [0x5a; 0x00; 0; 0; 0; 0; 0; 0x5a];
         [0x5a; 0x83; 0; 0; 0; 0; 0; 0xdd];
         [0xc0; 0x11; 0; 0; 0; 0; 0; 0xd1];
         [0x5a; 0x00; 0; 0; 0; 0; 0; 0x5a] ].
Proof. vm_compute. repeat split; reflexivity. Qed.

(** * The rest of the engine *)

(** ** Sleeping, sending, draining, timeouts *)

Section Helpers.

Context {P : Platform}.

Lemma set_errno_twice (e e' : Z) (w : world) :
  set_errno e (set_errno e' w) = set_errno e w.
Proof. reflexivity. Qed.

Lemma sleep_world (delay_ms : Z) (interrupts : list Z) :
  forall (e : Z) (w : world),
    set_errno e (snd (pyvac248ipnative_impl_sleep_ms_ delay_ms interrupts w))
    = set_errno e w.
Proof.
  induction interrupts as [| i rest IH]; intros e w; cbn.
  - reflexivity.
  - destruct (i =? EINTR).
    + rewrite IH. reflexivity.
    + reflexivity.
Qed.

Lemma sleep_zero_iff (delay_ms : Z) (interrupts : list Z) (w : world) :
  fst (pyvac248ipnative_impl_sleep_ms_ delay_ms interrupts w) = 0
  <-> Forall (fun e => e = EINTR) interrupts.
Proof.
  revert w. induction interrupts as [| i rest IH]; intros w; cbn.
  - split; [constructor | reflexivity].
  - destruct (Z.eqb_spec i EINTR) as [E | E].
    + rewrite IH. split.
      * intros H. constructor; assumption.
      * intros H. inversion H. assumption.
    + cbn. split.
      * intros H. discriminate.
      * intros H. inversion H. contradiction.
Qed.

(** X2.  [sleep_ms_] gives up at the first [nanosleep] failure that is
    not [EINTR]: it returns -1 with [errno] set to that code, whatever
    would have come after it, and leaves socket and wire alone. *)
Theorem sleep_stops_at_first_error (delay_ms : Z) (pre post : list Z) (e : Z) (w : world) :
  Forall (fun i => i = EINTR) pre -> e <> EINTR ->
  pyvac248ipnative_impl_sleep_ms_ delay_ms (pre ++ e :: post) w = (-1, set_errno e w).
Proof.
  intros Hpre He. revert w.
  induction pre as [| i pre IH]; intros w; cbn.
  - apply Z.eqb_neq in He. rewrite He. reflexivity.
  - inversion Hpre as [| i' pre' Hi Hrest]; subst.
    rewrite Z.eqb_refl. rewrite (IH Hrest). reflexivity.
Qed.

Lemma drain_loop_spec (queued : nat) (e : Z) (w : world) :
  drain_loop queued e w = (tt, set_errno e w).
Proof. induction queued as [| n IH]; cbn; [reflexivity | exact IH]. Qed.

(** X4.  [drop_packets_] returns 0 exactly when the [recvfrom] that ends
    the drain fails with [EAGAIN] or [EWOULDBLOCK], and -1 otherwise.
    Neither a failure of its sleep nor the number of queued datagrams
    changes that; [errno] afterwards is the code of that [recvfrom], and
    nothing else in the world has changed. *)
Theorem drop_packets_result (o : drop_env) (delay_ms : Z) (w : world) :
  pyvac248ipnative_impl_drop_packets_ o delay_ms w
  = (if (de_errno o =? EAGAIN) || (de_errno o =? EWOULDBLOCK) then 0 else -1,
     set_errno (de_errno o) w).
Proof.
  unfold pyvac248ipnative_impl_drop_packets_, bind.
  pose proof (sleep_world delay_ms (de_sleep o) (de_errno o) w) as Hs.
  destruct (pyvac248ipnative_impl_sleep_ms_ delay_ms (de_sleep o) w) as [r w1].
  cbn [snd] in Hs. rewrite drain_loop_spec, Hs. reflexivity.
Qed.

Lemma sleep_result (delay_ms : Z) (interrupts : list Z) (w : world) :
  fst (pyvac248ipnative_impl_sleep_ms_ delay_ms interrupts w) = 0
  \/ fst (pyvac248ipnative_impl_sleep_ms_ delay_ms interrupts w) = -1.
Proof.
  revert w. induction interrupts as [| i rest IH]; intros w; cbn.
  - left. reflexivity.
  - destruct (i =? EINTR); [apply IH | right; reflexivity].
Qed.

Lemma send_command_sent (o : send_env) (ip port command data delay_ms : Z) (w : world) :
  se_sendto o = Succeeds ->
  pyvac248ipnative_impl_send_command_ o ip port command data delay_ms w
  = pyvac248ipnative_impl_sleep_ms_ delay_ms (se_sleep o)
      (put_on_wire {| sd_ip := ip; sd_port := port;
                      sd_bytes := command_buf command data |} w).
Proof.
  intros Hs. unfold pyvac248ipnative_impl_send_command_, bind, sendto.
  rewrite Hs. reflexivity.
Qed.

Lemma send_command_not_sent (o : send_env) (ip port command data delay_ms : Z)
    (w : world) (e : Z) :
  se_sendto o = Fails e ->
  pyvac248ipnative_impl_send_command_ o ip port command data delay_ms w
  = (-1, set_errno e w).
Proof.
  intros Hs. unfold pyvac248ipnative_impl_send_command_, bind, sendto.
  rewrite Hs. reflexivity.
Qed.

(** X3.  [send_command_] never touches the socket options and returns 0
    or -1.  If [sendto] succeeds, exactly one datagram, the 8-byte
    [buf], has gone to the given address and port, and the result is 0
    exactly when the sleep was interrupted by [EINTR] only.  If [sendto]
    fails, the result is -1, nothing is on the wire, the sleep is skipped
    and [errno] is the code of [sendto]. *)
Theorem send_command_sends_once (o : send_env) (ip port command data delay_ms : Z)
    (w : world) :
  let run := pyvac248ipnative_impl_send_command_ o ip port command data delay_ms w in
  w_sock (snd run) = w_sock w
  /\ (fst run = 0 \/ fst run = -1)
  /\ match se_sendto o with
     | Succeeds =>
         w_sent (snd run)
         = w_sent w ++ [{| sd_ip := ip; sd_port := port;
                           sd_bytes := command_buf command data |}]
         /\ (fst run = 0 <-> Forall (fun e => e = EINTR) (se_sleep o))
     | Fails e => fst run = -1 /\ snd run = set_errno e w
     end.
Proof.
  cbv zeta. destruct (se_sendto o) as [| e] eqn:Es.
  - rewrite (send_command_sent o ip port command data delay_ms w Es).
    set (w0 := put_on_wire _ w).
    pose proof (sleep_world delay_ms (se_sleep o) 0 w0) as Hw.
    split; [| split; [apply sleep_result | split]].
    + apply (f_equal w_sock) in Hw. exact Hw.
    + apply (f_equal w_sent) in Hw. exact Hw.
    + apply sleep_zero_iff.
  - rewrite (send_command_not_sent o ip port command data delay_ms w e Es).
    cbn. repeat split; auto.
Qed.

(** X5.  [set_socket_timeout_] changes neither the flags nor the wire and
    returns 0 exactly when both [setsockopt] calls succeed; both timeouts
    are then the [timeval] of [timeout_ms].  Otherwise it returns -1 with
    the send timeout as it was: if [SO_RCVTIMEO] fails nothing but
    [errno] has changed, and if only [SO_SNDTIMEO] fails the receive
    timeout has already been replaced. *)
Theorem set_socket_timeout_outcome (o_rcv o_snd : outcome) (timeout_ms : Z) (w : world) :
  let run := pyvac248ipnative_impl_set_socket_timeout_ o_rcv o_snd timeout_ms w in
  let t := timeval_of_ms timeout_ms in
  so_flags (w_sock (snd run)) = so_flags (w_sock w)
  /\ w_sent (snd run) = w_sent w
  /\ (fst run = 0 <-> o_rcv = Succeeds /\ o_snd = Succeeds)
  /\ (fst run = 0 ->
      so_rcvtimeo (w_sock (snd run)) = t /\ so_sndtimeo (w_sock (snd run)) = t
      /\ w_errno (snd run) = w_errno w)
  /\ (fst run <> 0 ->
      fst run = -1 /\ so_sndtimeo (w_sock (snd run)) = so_sndtimeo (w_sock w))
  /\ (forall c, o_rcv = Fails c -> snd run = set_errno c w)
  /\ (forall c, o_rcv = Succeeds -> o_snd = Fails c ->
      so_rcvtimeo (w_sock (snd run)) = t /\ w_errno (snd run) = c).
Proof.
  cbv zeta. unfold pyvac248ipnative_impl_set_socket_timeout_, bind.
  destruct o_rcv as [| c1], o_snd as [| c2]; cbn;
    repeat split; intros; try discriminate; try congruence; try tauto; try lia;
    match goal with
    | H : _ /\ _ |- _ => destruct H; discriminate
    | _ => idtac
    end.
Qed.

(** X6.  For a non-negative [timeout_ms] the [timeval] built in lines
    341-342 is normalised (seconds not negative, microseconds in
    [0, 1000000)) and stands for exactly [timeout_ms] milliseconds. *)
Theorem timeval_of_ms_exact (timeout_ms : Z) :
  0 <= timeout_ms ->
  0 <= tv_sec (timeval_of_ms timeout_ms)
  /\ 0 <= tv_usec (timeval_of_ms timeout_ms) < 1000000
  /\ tv_sec (timeval_of_ms timeout_ms) * 1000000 + tv_usec (timeval_of_ms timeout_ms)
     = timeout_ms * 1000.
Proof.
  intros H. unfold timeval_of_ms. cbn [tv_sec tv_usec].
  pose proof (Z.quot_rem' timeout_ms 1000) as Hq.
  pose proof (Z.rem_bound_pos timeout_ms 1000 H ltac:(lia)) as Hr.
  pose proof (Z.quot_pos timeout_ms 1000 H ltac:(lia)) as Hp.
  lia.
Qed.

(** X7.  For a negative [timeout_ms] the division and remainder of C
    give a [timeval] with no positive field and at least one negative
    one, the microseconds above -1000000. *)
Theorem timeval_of_negative_ms (timeout_ms : Z) :
  timeout_ms < 0 ->
  tv_sec (timeval_of_ms timeout_ms) <= 0
  /\ -1000000 < tv_usec (timeval_of_ms timeout_ms) <= 0
  /\ (tv_sec (timeval_of_ms timeout_ms) < 0 \/ tv_usec (timeval_of_ms timeout_ms) < 0).
Proof.
  intros H. unfold timeval_of_ms. cbn [tv_sec tv_usec].
  pose proof (Z.quot_rem' (- timeout_ms) 1000) as Hq.
  pose proof (Z.rem_bound_pos (- timeout_ms) 1000 ltac:(lia) ltac:(lia)) as Hr.
  pose proof (Z.quot_pos (- timeout_ms) 1000 ltac:(lia) ltac:(lia)) as Hp.
  rewrite <- (Z.opp_involutive timeout_ms).
  rewrite Z.quot_opp_l, Z.rem_opp_l by lia.
  lia.
Qed.
End Helpers.

(** ** Single rounds *)

Section Rounds.

Variable a : capture_args.

Lemma slot_payload_value (st : loop_state) :
  0 <= packets_received_ st -> packets_received_ st * 1473 <= INT_MAX ->
  slot_payload st = packets_received_ st * 1473 + 1.
Proof.
  intros H0 H1. unfold slot_payload. rewrite to_int_in_range; [reflexivity |].
  unfold INT_MIN. lia.
Qed.

(** X9.  A datagram of 1472 or 48 bytes whose sender is not the camera
    changes neither the count, nor the malformed-run counter, nor the
    result, nor the captured [errno]; the loop goes on.  No packet-type
    byte changes, and the only bytes that can change lie in the payload
    region of the next free slot. *)
Theorem foreign_packet_ignored (ev : arrival) (st : loop_state) (w : world) :
  received 1472 ev \/ received 48 ev -> s_addr ev <> camera_ip a ->
  0 <= packets_received_ st -> packets_received_ st * 1473 <= INT_MAX ->
  exists st',
    loop_body a ev st w = (Continue st', w)
    /\ packets_received_ st' = packets_received_ st
    /\ incorrect_packets_length st' = incorrect_packets_length st
    /\ result st' = result st
    /\ errno_ st' = errno_ st
    /\ (forall i, dst st' (i * 1473) = dst st (i * 1473))
    /\ (forall q, q < packets_received_ st * 1473 + 1
                  \/ packets_received_ st * 1473 + 1473 <= q ->
                  dst st' q = dst st q).
Proof.
  intros Hrecv Ha H0 H1. exists (after_recv ev st).
  pose proof (slot_payload_value st H0 H1) as Hp.
  assert (Hlen : Z.min (recvfrom_res ev) 1472 <= 1472) by lia.
  split; [apply loop_body_foreign; assumption |].
  repeat split; intros; cbn; rewrite Hp; apply stored_elsewhere; lia.
Qed.

(** X10.  A 1472-byte datagram of the camera whose pixel offset is no
    multiple of 1468, or lies above [1468 * (frame_packets - 1)], is not
    counted, whatever its frame number: the loop goes on with the same
    count and result, the malformed-run counter at 0 and every
    packet-type byte as it was. *)
Theorem invalid_offset_not_counted (ev : arrival) (st : loop_state) (w : world) :
  received 1472 ev -> s_addr ev = camera_ip a ->
  pixel_offset_of ev mod 1468 <> 0
  \/ pixel_offset_of ev > 1468 * (frame_packets a - 1) ->
  INT_MIN <= 1468 * (frame_packets a - 1) <= INT_MAX ->
  0 <= packets_received_ st -> packets_received_ st * 1473 <= INT_MAX ->
  exists st',
    loop_body a ev st w = (Continue st', w)
    /\ packets_received_ st' = packets_received_ st
    /\ incorrect_packets_length st' = 0
    /\ result st' = result st
    /\ (forall i, dst st' (i * 1473) = dst st (i * 1473)).
Proof.
  intros Hrecv Ha Hbad Hfp H0 H1. exists (with_incorrect 0 (after_recv ev st)).
  pose proof (slot_payload_value st H0 H1) as Hp.
  split.
  - apply loop_body_discarded; [exact Hfp |].
    split; [exact Hrecv | split; [exact Ha |]]. right. tauto.
  - repeat split. intros i. cbn. rewrite Hp. apply stored_elsewhere.
    destruct Hrecv as [_ ->]. cbn. lia.
Qed.

(** X11.  A 1472-byte datagram of the camera for a frame in
    [1, frames] at a valid offset is counted.  Its 1472 bytes are the
    payload region of the slot whose index is the old count, the
    malformed-run counter is 0, and no other byte of the buffer changes;
    in particular the packet-type byte of that slot is not written. *)
Theorem data_packet_stored (ev : arrival) (st : loop_state) (w : world) :
  received 1472 ev -> s_addr ev = camera_ip a ->
  1 <= frame_number_of ev <= frames a ->
  pixel_offset_of ev mod 1468 = 0 ->
  pixel_offset_of ev <= 1468 * (frame_packets a - 1) <= INT_MAX ->
  0 <= packets_received_ st -> packets_received_ st * 1473 <= INT_MAX ->
  exists st',
    loop_body a ev st w = (Continue st', w)
    /\ packets_received_ st' = packets_received_ st + 1
    /\ incorrect_packets_length st' = 0
    /\ result st' = result st
    /\ (forall j, 0 <= j < 1472 ->
                  dst st' (packets_received_ st * 1473 + 1 + j)
                  = to_uchar (nth (Z.to_nat j) (payload ev) 0))
    /\ (forall q, q < packets_received_ st * 1473 + 1
                  \/ packets_received_ st * 1473 + 1473 <= q ->
                  dst st' q = dst st q).
Proof.
  intros Hrecv Ha Hf Hm Ho H0 H1.
  pose proof (slot_payload_value st H0 H1) as Hp.
  pose proof (pixel_offset_nonneg ev) as Hoff.
  exists (with_received (packets_received_ st + 1) (with_incorrect 0 (after_recv ev st))).
  split.
  - rewrite loop_body_data by assumption. cbv zeta.
    rewrite filter_bound by (unfold INT_MIN; lia).
    rewrite Z.rem_mod_nonneg, Hm by lia.
    destruct (Z.eqb_spec (frame_number_of ev) 0) as [E | _]; [lia |].
    destruct (Z.gtb_spec (pixel_offset_of ev) (1468 * (frame_packets a - 1)))
      as [E | _]; [lia |].
    cbn [orb negb Z.eqb].
    destruct (Z.gtb_spec (frame_number_of ev) (frames a)) as [E | _]; [lia |].
    rewrite to_int_in_range by (unfold INT_MIN, INT_MAX in *; lia). reflexivity.
  - destruct Hrecv as [_ Hlen].
    repeat split; intros; cbn; rewrite Hp, Hlen;
      [apply stored_byte | apply stored_elsewhere]; cbn; lia.
Qed.

(** X12.  A 48-byte datagram of the camera is counted.  The packet-type
    byte of the slot whose index is the old count becomes 1, its first 48
    payload bytes are the datagram, the malformed-run counter is 0, and
    no other byte changes, the rest of that slot's payload region
    included. *)
Theorem config_packet_stored (ev : arrival) (st : loop_state) (w : world) :
  received 48 ev -> s_addr ev = camera_ip a ->
  0 <= packets_received_ st -> packets_received_ st * 1473 <= INT_MAX ->
  exists st',
    loop_body a ev st w = (Continue st', w)
    /\ packets_received_ st' = packets_received_ st + 1
    /\ incorrect_packets_length st' = 0
    /\ result st' = result st
    /\ dst st' (packets_received_ st * 1473) = 1
    /\ (forall j, 0 <= j < 48 ->
                  dst st' (packets_received_ st * 1473 + 1 + j)
                  = to_uchar (nth (Z.to_nat j) (payload ev) 0))
    /\ (forall q, q < packets_received_ st * 1473
                  \/ packets_received_ st * 1473 + 49 <= q ->
                  dst st' q = dst st q).
Proof.
  intros Hrecv Ha H0 H1.
  pose proof (slot_payload_value st H0 H1) as Hp.
  eexists. split.
  - rewrite loop_body_config by assumption. cbv zeta.
    rewrite to_int_in_range by (unfold INT_MIN, INT_MAX in *; lia). reflexivity.
  - destruct Hrecv as [_ Hlen].
    cbn. rewrite Hp, Hlen. change (Z.min 48 1472) with 48.
    replace (packets_received_ st * 1473 + 1 - 1) with (packets_received_ st * 1473)
      by lia.
    unfold store.
    repeat split.
    + rewrite Z.eqb_refl. reflexivity.
    + intros j Hj.
      destruct (Z.eqb_spec (packets_received_ st * 1473 + 1 + j)
                  (packets_received_ st * 1473)) as [E | _]; [lia |].
      apply stored_byte. exact Hj.
    + intros q Hq.
      destruct (Z.eqb_spec q (packets_received_ st * 1473)) as [E | _]; [lia |].
      apply stored_elsewhere. lia.
Qed.

End Rounds.

(** ** Invariants of the loop *)

Section Loop.

Variable a : capture_args.

Lemma loop_body_frame (ev : arrival) (st : loop_state) (w : world) :
  0 <= packets_received_ st -> (packets_received_ st + 1) * 1473 <= INT_MAX ->
  (packets_received_ (state_of (fst (loop_body a ev st w))) = packets_received_ st
   \/ packets_received_ (state_of (fst (loop_body a ev st w))) = packets_received_ st + 1)
  /\ forall q,
       q < packets_received_ st * 1473 \/ packets_received_ st * 1473 + 1473 <= q ->
       dst (state_of (fst (loop_body a ev st w))) q = dst st q.
Proof.
  intros H0 H1.
  assert (Hoff : to_int (packets_received_ st * (PYVAC248IPNATIVE_IMPL_DATA_PACKET_SIZE_ + 1))
                 = packets_received_ st * 1473).
  { change (PYVAC248IPNATIVE_IMPL_DATA_PACKET_SIZE_ + 1) with 1473.
    apply to_int_in_range. unfold INT_MIN, INT_MAX in *. lia. }
  assert (Hinc : to_int (packets_received_ st + 1) = packets_received_ st + 1).
  { apply to_int_in_range. unfold INT_MIN, INT_MAX in *. lia. }
  unfold loop_body, bind, poll, recvfrom. rewrite Hoff.
  change PYVAC248IPNATIVE_IMPL_DATA_PACKET_SIZE_ with 1472.
  destruct (poll_res ev =? 1).
  - destruct (recvfrom_res ev <? 0) eqn:Er; cbv beta iota zeta; rewrite ?Er;
      repeat match goal with
             | |- context [if ?c then _ else _] => destruct c
             end;
      cbn; rewrite ?Hinc; (split; [auto |]); intros q Hq; try reflexivity;
      unfold store; try rewrite stored_elsewhere by lia;
      try (destruct (Z.eqb_spec q (packets_received_ st * 1473)); [lia |]);
      try rewrite stored_elsewhere by lia; reflexivity.
  - destruct (poll_res ev =? 0); cbn; (split; [auto |]); reflexivity.
Qed.

Lemma loop_body_status (ev : arrival) (st : loop_state) (w : world) :
  -1 <= result st <= 2 ->
  -1 <= result (state_of (fst (loop_body a ev st w))) <= 2.
Proof.
  intros Hr.
  unfold loop_body, bind, poll, recvfrom.
  destruct (poll_res ev =? 1).
  - destruct (recvfrom_res ev <? 0) eqn:Er; cbv beta iota zeta; rewrite ?Er;
      repeat match goal with
             | |- context [if ?c then _ else _] => destruct c
             end; cbn; lia.
  - destruct (poll_res ev =? 0); cbn; lia.
Qed.

Lemma capture_loop_status (evs : list arrival) :
  forall (st : loop_state) (w : world),
    -1 <= result st <= 2 ->
    -1 <= result (final_state (fst (capture_loop a evs st w))) <= 2.
Proof.
  induction evs as [| ev evs IH]; intros st w Hr.
  - cbn. destruct (packets_received_ st <? dst_size a); exact Hr.
  - cbn [capture_loop].
    destruct (packets_received_ st <? dst_size a); [| exact Hr].
    unfold bind. pose proof (loop_body_status ev st w Hr) as Hs.
    destruct (loop_body a ev st w) as [[st1 | st1] w1]; cbn in Hs.
    + apply IH. exact Hs.
    + exact Hs.
Qed.

(** The loop invariant: the count only grows and stays within the
    buffer, filled slots and everything outside the buffer stay as they
    are. *)
Lemma capture_loop_invariant (evs : list arrival) :
  forall (st : loop_state) (w : world),
    0 <= packets_received_ st <= dst_size a ->
    dst_size a * 1473 <= INT_MAX ->
    let st' := final_state (fst (capture_loop a evs st w)) in
    packets_received_ st <= packets_received_ st' <= dst_size a
    /\ forall q, q < packets_received_ st * 1473 \/ dst_size a * 1473 <= q ->
                 dst st' q = dst st q.
Proof.
  induction evs as [| ev evs IH]; intros st w Hn Hmax; cbv zeta.
  - cbn. destruct (packets_received_ st <? dst_size a); cbn; repeat split; lia.
  - cbn [capture_loop].
    destruct (Z.ltb_spec (packets_received_ st) (dst_size a)) as [Hlt | Hge].
    2: { cbn. repeat split; lia. }
    unfold bind.
    pose proof (loop_body_frame ev st w ltac:(lia) ltac:(lia)) as [Hc Hd].
    destruct (loop_body a ev st w) as [[st1 | st1] w1]; cbn in Hc, Hd.
    + specialize (IH st1 w1 ltac:(lia) Hmax). cbv zeta in IH.
      destruct IH as (Hc' & Hd').
      repeat split; try lia.
      intros q Hq. rewrite Hd' by lia. apply Hd. lia.
    + cbn. repeat split; try lia. intros q Hq. apply Hd. lia.
Qed.

(** X13.  However the arrivals go, the count never decreases and never
    exceeds [dst_size], and the slots below the count the loop started
    from are never written again: slots are filled in the order in which
    packets are accepted.  ([dst_size * 1473] has to fit an [int].) *)
Theorem filled_slots_never_overwritten (evs : list arrival) (st : loop_state) (w : world) :
  0 <= packets_received_ st <= dst_size a ->
  dst_size a * 1473 <= INT_MAX ->
  packets_received_ st
  <= packets_received_ (final_state (fst (capture_loop a evs st w)))
  <= dst_size a
  /\ forall q, q < packets_received_ st * 1473 ->
               dst (final_state (fst (capture_loop a evs st w))) q = dst st q.
Proof.
  intros Hn Hmax.
  destruct (capture_loop_invariant evs st w Hn Hmax) as [Hc Hd].
  split; [exact Hc |]. intros q Hq. apply Hd. left. exact Hq.
Qed.

Lemma loop_body_breaks (ev : arrival) (st : loop_state) (w : world) :
  poll_res ev = 0 \/ round_fails ev ->
  exists st', fst (loop_body a ev st w) = Break st'.
Proof.
  intros [H0 | [[H0 H1] | [H1 Hr]]].
  - rewrite loop_body_timeout by exact H0. eexists. reflexivity.
  - unfold loop_body, bind, poll.
    apply Z.eqb_neq in H0, H1. rewrite H0, H1. eexists. reflexivity.
  - rewrite loop_body_recvfrom_fails by assumption. eexists. reflexivity.
Qed.

Lemma capture_loop_left_by (evs : list arrival) :
  forall (ev : arrival) (rest : list arrival) (st : loop_state) (w : world),
    poll_res ev = 0 \/ round_fails ev ->
    exists st' w', capture_loop a (evs ++ ev :: rest) st w = (Left_loop st', w').
Proof.
  induction evs as [| ev0 evs IH]; intros ev rest st w Hev; cbn [app capture_loop].
  - destruct (packets_received_ st <? dst_size a); [| eexists; eexists; reflexivity].
    unfold bind. destruct (loop_body_breaks ev st w Hev) as [st' E].
    destruct (loop_body a ev st w) as [s w1]. cbn in E. subst s.
    eexists. eexists. reflexivity.
  - destruct (packets_received_ st <? dst_size a); [| eexists; eexists; reflexivity].
    unfold bind. destruct (loop_body a ev0 st w) as [[st1 | st1] w1].
    + apply IH. exact Hev.
    + eexists. eexists. reflexivity.
Qed.

End Loop.

(** ** Runs of accepted packets *)

Section Full.

Variable a : capture_args.

Lemma loop_body_accepted (ev : arrival) (st : loop_state) (w : world) :
  accepted a ev ->
  1468 * (frame_packets a - 1) <= INT_MAX ->
  0 <= packets_received_ st < INT_MAX ->
  exists st',
    loop_body a ev st w = (Continue st', w)
    /\ packets_received_ st' = packets_received_ st + 1
    /\ incorrect_packets_length st' = 0
    /\ result st' = result st.
Proof.
  intros [Ha [(Hrecv & Hf & Hm & Ho) | Hrecv]] Hfp Hn.
  - pose proof (pixel_offset_nonneg ev) as Hoff.
    eexists. split.
    + rewrite loop_body_data by assumption. cbv zeta.
      rewrite filter_bound by (unfold INT_MIN; lia).
      rewrite Z.rem_mod_nonneg, Hm by lia.
      destruct (Z.eqb_spec (frame_number_of ev) 0) as [E | _]; [lia |].
      destruct (Z.gtb_spec (pixel_offset_of ev) (1468 * (frame_packets a - 1)))
        as [E | _]; [lia |].
      cbn [orb negb Z.eqb].
      destruct (Z.gtb_spec (frame_number_of ev) (frames a)) as [E | _]; [lia |].
      rewrite to_int_in_range by (unfold INT_MIN, INT_MAX in *; lia). reflexivity.
    + repeat split.
  - eexists. split.
    + rewrite loop_body_config by assumption. cbv zeta.
      rewrite to_int_in_range by (unfold INT_MIN, INT_MAX in *; lia). reflexivity.
    + repeat split.
Qed.

Lemma accepted_run (evs : list arrival) :
  forall (rest : list arrival) (st : loop_state) (w : world),
    Forall (accepted a) evs ->
    1468 * (frame_packets a - 1) <= INT_MAX ->
    0 <= packets_received_ st ->
    packets_received_ st + Z.of_nat (length evs) <= dst_size a ->
    dst_size a <= INT_MAX ->
    exists st',
      capture_loop a (evs ++ rest) st w = capture_loop a rest st' w
      /\ packets_received_ st' = packets_received_ st + Z.of_nat (length evs)
      /\ result st' = result st.
Proof.
  induction evs as [| ev evs IH]; intros rest st w Hall Hfp H0 Hlen Hmax.
  - exists st. cbn. repeat split; lia.
  - inversion Hall as [| ev' evs' Hev Hevs]; subst.
    cbn [length] in Hlen. rewrite Nat2Z.inj_succ in Hlen.
    cbn [app]. rewrite capture_loop_cons by lia.
    destruct (loop_body_accepted ev st w Hev Hfp ltac:(lia)) as (st1 & E1 & Hp1 & _ & Hr1).
    rewrite E1.
    destruct (IH rest st1 w Hevs Hfp ltac:(lia) ltac:(lia) Hmax)
      as (st2 & E2 & Hp2 & Hr2).
    exists st2. rewrite E2. cbn [length]. rewrite Nat2Z.inj_succ.
    repeat split; try lia; congruence.
Qed.

Lemma full_buffer_ends_capture (evs rest : list arrival) (st : loop_state) (w : world) :
  Forall (accepted a) evs ->
  1468 * (frame_packets a - 1) <= INT_MAX ->
  0 <= packets_received_ st ->
  packets_received_ st + Z.of_nat (length evs) = dst_size a ->
  dst_size a <= INT_MAX ->
  exists st',
    capture_loop a (evs ++ rest) st w = (Left_loop st', w)
    /\ packets_received_ st' = dst_size a
    /\ result st' = result st.
Proof.
  intros Hall Hfp H0 Hlen Hmax.
  destruct (accepted_run evs rest st w Hall Hfp H0 ltac:(lia) Hmax)
    as (st' & E & Hp & Hr).
  exists st'. rewrite E, capture_loop_full by lia.
  repeat split; [lia | exact Hr].
Qed.

End Full.

(** ** Bounds of a whole call *)

Section Whole.

Context {P : Platform}.
Variable a : capture_args.
Variable e : env.

Lemma init_markers_outside (dst_size : Z) (m : mem) (q : Z) :
  q < 0 \/ dst_size * 1473 <= q -> init_markers dst_size m q = m q.
Proof.
  intros Hq. rewrite init_markers_spec.
  destruct (Z.leb_spec 0 q) as [H0 | H0]; [| reflexivity].
  destruct (Z.ltb_spec q dst_size) as [H1 | H1]; [| reflexivity].
  exfalso. lia.
Qed.

(** X14.  Whatever the environment does, a call that returns returns
    -1, 0, 1 or 2. *)
Theorem status_is_one_of_four (dst0 : mem) (packets_received0 : Z) (w : world)
    (r : capture_return) (w' : world) :
  pyvac248ipnative_capture_packets a e dst0 packets_received0 w = (Some r, w') ->
  status r = -1 \/ status r = 0 \/ status r = 1 \/ status r = 2.
Proof.
  intros Hrun.
  destruct (init_succeeds_or_not a e dst0 packets_received0 w) as [Hinit | Hearly].
  2: { rewrite Hrun in Hearly. cbn in Hearly. injection Hearly as ->. left. reflexivity. }
  destruct (capture_anatomy a e dst0 packets_received0 w r w' Hinit Hrun)
    as (st & w1 & w2 & w3 & w4 & failed & Hloop & _ & _ & Hout).
  pose proof (set_output_spec st failed w4) as Hspec. rewrite Hout in Hspec.
  destruct Hspec as (_ & Hstatus & _).
  pose proof (capture_loop_status a (env_arrivals e) (entry_state a dst0) w1
                ltac:(cbn; lia)) as Hs.
  rewrite Hloop in Hs. cbn in Hs.
  destruct failed; lia.
Qed.

(** X15.  A call that gets past Init reports a count between 0 and
    [dst_size] (0 when [dst_size] is negative), [dst_size * 1473] fitting
    an [int]. *)
Theorem count_within_buffer (dst0 : mem) (packets_received0 : Z) (w : world)
    (r : capture_return) (w' : world) :
  init_succeeds e w ->
  pyvac248ipnative_capture_packets a e dst0 packets_received0 w = (Some r, w') ->
  dst_size a * 1473 <= INT_MAX ->
  0 <= packets_received r <= Z.max 0 (dst_size a).
Proof.
  intros Hinit Hrun Hmax.
  destruct (capture_anatomy a e dst0 packets_received0 w r w' Hinit Hrun)
    as (st & w1 & w2 & w3 & w4 & failed & Hloop & _ & _ & Hout).
  pose proof (set_output_spec st failed w4) as Hspec. rewrite Hout in Hspec.
  destruct Hspec as (_ & _ & Hcount & _).
  assert (Hst : 0 <= packets_received_ st <= Z.max 0 (dst_size a)).
  { destruct (Z_le_dec (dst_size a) 0) as [Hle | Hgt].
    - rewrite capture_loop_full in Hloop by (cbn; lia).
      injection Hloop as <- _. cbn. lia.
    - pose proof (capture_loop_invariant a (env_arrivals e) (entry_state a dst0) w1
                    ltac:(cbn; lia) Hmax) as [Hc _].
      rewrite Hloop in Hc. cbn in Hc. lia. }
  destruct (status r =? -1); lia.
Qed.

(** X16.  A call writes only inside the [dst_size] slots of the buffer:
    every byte before [dst] or from offset [dst_size * 1473] on is, in
    the buffer handed back, what it was on entry ([dst_size * 1473]
    fitting an [int]). *)
Theorem buffer_bounds_respected (dst0 : mem) (packets_received0 : Z) (w : world)
    (r : capture_return) (w' : world) :
  pyvac248ipnative_capture_packets a e dst0 packets_received0 w = (Some r, w') ->
  dst_size a * 1473 <= INT_MAX ->
  forall q, q < 0 \/ dst_size a * 1473 <= q -> buffer r q = dst0 q.
Proof.
  intros Hrun Hmax q Hq.
  destruct (init_succeeds_or_not a e dst0 packets_received0 w) as [Hinit | Hearly].
  2: { rewrite Hrun in Hearly. cbn in Hearly. injection Hearly as ->. reflexivity. }
  destruct (capture_anatomy a e dst0 packets_received0 w r w' Hinit Hrun)
    as (st & w1 & w2 & w3 & w4 & failed & Hloop & _ & _ & Hout).
  pose proof (set_output_spec st failed w4) as Hspec. rewrite Hout in Hspec.
  destruct Hspec as (_ & _ & _ & Hbuf & _). rewrite Hbuf.
  destruct (Z_le_dec (dst_size a) 0) as [Hle | Hgt].
  - rewrite capture_loop_full in Hloop by (cbn; lia).
    injection Hloop as <- _. cbn. apply init_markers_outside. exact Hq.
  - pose proof (capture_loop_invariant a (env_arrivals e) (entry_state a dst0) w1
                  ltac:(cbn; lia) Hmax) as [_ Hd].
    rewrite Hloop in Hd. cbn [fst final_state] in Hd.
    rewrite Hd by (cbn; lia). cbn. apply init_markers_outside. exact Hq.
Qed.

Lemma capture_of_loop (dst0 : mem) (packets_received0 : Z) (w : world) (res n : Z) :
  init_succeeds e w ->
  (forall w1, exists st,
      capture_loop a (env_arrivals e) (entry_state a dst0) w1 = (Left_loop st, w1)
      /\ result st = res /\ packets_received_ st = n) ->
  exists r w' st,
    pyvac248ipnative_capture_packets a e dst0 packets_received0 w = (Some r, w')
    /\ (forall q, buffer r q = dst st q)
    /\ (Z.lor (so_flags (w_sock w)) O_NONBLOCK = so_flags (w_sock w)
        \/ restoration_failure e = None ->
        status r = res /\ packets_received r = (if res =? -1 then 0 else n))
    /\ (Z.lor (so_flags (w_sock w)) O_NONBLOCK <> so_flags (w_sock w) ->
        restoration_failure e <> None ->
        status r = -1 /\ packets_received r = 0).
Proof.
  intros Hinit Hloop.
  destruct Hinit as (Hg & Hfl & Hs).
  destruct (capture_past_init a e dst0 packets_received0 w Hg Hfl Hs) as (w1 & _ & E).
  destruct (Hloop w1) as (st & El & Hres & Hn).
  rewrite El in E.
  destruct (after_loop_spec a e (so_flags (w_sock w))
              (Z.lor (so_flags (w_sock w)) O_NONBLOCK) st w1) as (w2 & _ & E2).
  rewrite E2 in E. clear E2.
  destruct (restore_socket a e _ _ w2) as [failed w3] eqn:Er.
  pose proof (set_output_spec st failed w3) as Hspec.
  destruct (set_output st failed w3) as [r w'].
  destruct Hspec as (_ & Hstatus & Hcount & Hbuf & _).
  exists r, w', st. split; [exact E |]. split; [intros q; rewrite Hbuf; reflexivity |].
  split.
  - intros Hok.
    assert (failed = false) as ->.
    { destruct Hok as [Hsame | Hnone].
      - rewrite Hsame, restore_socket_skipped in Er. congruence.
      - destruct (Z.eq_dec (Z.lor (so_flags (w_sock w)) O_NONBLOCK) (so_flags (w_sock w)))
          as [Hsame | Hne].
        + rewrite Hsame, restore_socket_skipped in Er. congruence.
        + destruct (restore_socket_spec a e (so_flags (w_sock w)) _ w2 Hne)
            as (w5 & E5 & _).
          rewrite E5, Hnone in Er. congruence. }
    cbn in Hstatus. rewrite Hstatus, Hres, Hn in Hcount.
    split; [congruence | exact Hcount].
  - intros Hne Hfail.
    destruct (restore_socket_spec a e (so_flags (w_sock w)) _ w2 Hne) as (w5 & E5 & _).
    rewrite E5 in Er. destruct (restoration_failure e); [| contradiction].
    injection Er as <- _. rewrite Hstatus in Hcount. cbn in Hcount. split; assumption.
Qed.

End Whole.

(** ** Outcomes of a whole call *)

Section Outcomes.

Context {P : Platform}.
Variable a : capture_args.
Variable e : env.



(** X18.  If the camera's packets are all accepted and [poll] then times
    out before the buffer is full, the call returns 1 (Timeout) and
    reports the number of packets accepted so far (Init and the
    restoration of the socket going through). *)
Theorem timeout_reports_accepted_count (dst0 : mem) (packets_received0 : Z) (w : world)
    (evs rest : list arrival) (ev : arrival) :
  init_succeeds e w -> restoration_succeeds e w ->
  env_arrivals e = evs ++ ev :: rest ->
  Forall (accepted a) evs -> poll_res ev = 0 ->
  Z.of_nat (length evs) < dst_size a <= INT_MAX ->
  1468 * (frame_packets a - 1) <= INT_MAX ->
  exists r w',
    pyvac248ipnative_capture_packets a e dst0 packets_received0 w = (Some r, w')
    /\ status r = 1
    /\ packets_received r = Z.of_nat (length evs).
Proof.
  intros Hinit Hgood Harr Hall Hpoll Hlen Hfp.
  destruct (capture_of_loop a e dst0 packets_received0 w 1 (Z.of_nat (length evs)) Hinit)
    as (r & w' & st & Hrun & _ & Hok & _).
  { intros w1. rewrite Harr.
    destruct (accepted_run a evs (ev :: rest) (entry_state a dst0) w1 Hall Hfp)
      as (st' & E & Hp & Hr); try lia; try (cbn; lia).
    rewrite E, capture_loop_cons by (rewrite Hp; cbn; lia).
    rewrite loop_body_timeout by exact Hpoll.
    eexists. split; [reflexivity |]. cbn. split; [reflexivity |]. rewrite Hp. cbn. lia. }
  exists r, w'. destruct (Hok Hgood) as [Hs Hc]. cbn in Hc. repeat split; assumption.
Qed.

Lemma loop_body_frame_complete (ev : arrival) (st : loop_state) (w : world) :
  frame_complete a ev -> 1468 * (frame_packets a - 1) <= INT_MAX ->
  loop_body a ev st w = (Break (with_result 0 (with_incorrect 0 (after_recv ev st))), w).
Proof.
  intros (Hrecv & Ha & Hf0 & Hf & Hm & Ho) Hfp.
  pose proof (pixel_offset_nonneg ev) as Hoff.
  rewrite loop_body_data by assumption. cbv zeta.
  rewrite filter_bound by (unfold INT_MIN; lia).
  rewrite Z.rem_mod_nonneg, Hm by lia.
  apply Z.eqb_neq in Hf0. rewrite Hf0.
  destruct (Z.gtb_spec (pixel_offset_of ev) (1468 * (frame_packets a - 1)))
    as [E | _]; [lia |].
  cbn [orb negb Z.eqb].
  destruct (Z.gtb_spec (frame_number_of ev) (frames a)) as [_ | E]; [| lia].
  reflexivity.
Qed.

(** X19.  If the camera's packets are all accepted and a valid data
    packet of a frame after the last wanted one arrives before the buffer
    is full, the call returns 0 (Success) and reports the number of
    packets accepted before it (Init and the restoration of the socket
    going through). *)
Theorem frames_complete_reports_success (dst0 : mem) (packets_received0 : Z) (w : world)
    (evs rest : list arrival) (ev : arrival) :
  init_succeeds e w -> restoration_succeeds e w ->
  env_arrivals e = evs ++ ev :: rest ->
  Forall (accepted a) evs -> frame_complete a ev ->
  Z.of_nat (length evs) < dst_size a <= INT_MAX ->
  1468 * (frame_packets a - 1) <= INT_MAX ->
  exists r w',
    pyvac248ipnative_capture_packets a e dst0 packets_received0 w = (Some r, w')
    /\ status r = 0
    /\ packets_received r = Z.of_nat (length evs).
Proof.
  intros Hinit Hgood Harr Hall Hfc Hlen Hfp.
  destruct (capture_of_loop a e dst0 packets_received0 w 0 (Z.of_nat (length evs)) Hinit)
    as (r & w' & st & Hrun & _ & Hok & _).
  { intros w1. rewrite Harr.
    destruct (accepted_run a evs (ev :: rest) (entry_state a dst0) w1 Hall Hfp)
      as (st' & E & Hp & Hr); try lia; try (cbn; lia).
    rewrite E, capture_loop_cons by (rewrite Hp; cbn; lia).
    rewrite loop_body_frame_complete by assumption.
    eexists. split; [reflexivity |]. cbn. split; [reflexivity |]. rewrite Hp. cbn. lia. }
  exists r, w'. destruct (Hok Hgood) as [Hs Hc]. cbn in Hc. repeat split; assumption.
Qed.

(** X20.  If the first [dst_size] arrivals are all accepted, the call
    returns 0 (Success) with a count of [dst_size] and does not look at
    what arrives later (Init and the restoration of the socket going
    through). *)
Theorem full_buffer_reports_success (dst0 : mem) (packets_received0 : Z) (w : world)
    (evs rest : list arrival) :
  init_succeeds e w -> restoration_succeeds e w ->
  env_arrivals e = evs ++ rest ->
  Forall (accepted a) evs ->
  Z.of_nat (length evs) = dst_size a -> dst_size a <= INT_MAX ->
  1468 * (frame_packets a - 1) <= INT_MAX ->
  exists r w',
    pyvac248ipnative_capture_packets a e dst0 packets_received0 w = (Some r, w')
    /\ status r = 0
    /\ packets_received r = dst_size a.
Proof.
  intros Hinit Hgood Harr Hall Hlen Hmax Hfp.
  destruct (capture_of_loop a e dst0 packets_received0 w 0 (dst_size a) Hinit)
    as (r & w' & st & Hrun & _ & Hok & _).
  { intros w1. rewrite Harr.
    destruct (full_buffer_ends_capture a evs rest (entry_state a dst0) w1 Hall Hfp)
      as (st' & E & Hp & Hr); try lia; try (cbn; lia).
    exists st'. repeat split; assumption. }
  exists r, w'. destruct (Hok Hgood) as [Hs Hc]. cbn in Hc. repeat split; assumption.
Qed.

(** X21.  The call returns at the latest in the round in which [poll]
    times out or [poll] or [recvfrom] fails: whatever arrives before and
    after such a round, the call has a return value. *)
Theorem capture_returns_at_timeout_or_failure (dst0 : mem) (packets_received0 : Z)
    (w : world) (evs rest : list arrival) (ev : arrival) :
  env_arrivals e = evs ++ ev :: rest ->
  poll_res ev = 0 \/ round_fails ev ->
  exists r w',
    pyvac248ipnative_capture_packets a e dst0 packets_received0 w = (Some r, w').
Proof.
  intros Harr Hev.
  destruct (init_succeeds_or_not a e dst0 packets_received0 w) as [Hinit | Hearly].
  - destruct Hinit as (Hg & Hfl & Hs).
    destruct (capture_past_init a e dst0 packets_received0 w Hg Hfl Hs) as (w1 & _ & E).
    rewrite E, Harr.
    destruct (capture_loop_left_by a evs ev rest (entry_state a dst0) w1 Hev)
      as (st & w2 & ->).
    destruct (after_loop a e _ _ st w2) as [r w']. exists r, w'. reflexivity.
  - destruct (pyvac248ipnative_capture_packets a e dst0 packets_received0 w) as [o w'].
    cbn in Hearly. subst o. eexists. eexists. reflexivity.
Qed.

(** X22.  If [F_GETFL] fails, or [F_SETFL] fails when the socket has to
    be made non-blocking, the call returns -1 at once: no command has
    been sent, the socket options and the buffer (its packet-type bytes
    included) are as on entry, [*packets_received] is not written and
    [errno] is the code of the failed [fcntl]. *)
Theorem failed_init_touches_nothing (dst0 : mem) (packets_received0 : Z) (w : world)
    (c : Z) :
  env_getfl e = Fails c
  \/ (env_getfl e = Succeeds /\ 0 <= so_flags (w_sock w)
      /\ Z.lor (so_flags (w_sock w)) O_NONBLOCK <> so_flags (w_sock w)
      /\ env_setfl e = Fails c) ->
  pyvac248ipnative_capture_packets a e dst0 packets_received0 w
  = (Some {| status := -1; packets_received := packets_received0; buffer := dst0 |},
     set_errno c w).
Proof.
  intros [Hg | (Hg & Hfl & Hne & Hs)];
    unfold pyvac248ipnative_capture_packets, bind, fcntl_getfl; rewrite Hg.
  - reflexivity.
  - apply Z.ltb_ge in Hfl. apply Z.eqb_neq in Hne. rewrite Hfl, Hne, Hs. reflexivity.
Qed.

End Outcomes.

(** ** The commands on the wire *)

Lemma same_sent_refl (w : world) : same_sent w w.
Proof. reflexivity. Qed.

Lemma same_sent_trans (w1 w2 w3 : world) :
  same_sent w1 w2 -> same_sent w2 w3 -> same_sent w1 w3.
Proof. unfold same_sent. congruence. Qed.

Lemma same_sent_errno (e : Z) (w : world) : same_sent w (set_errno e w).
Proof. reflexivity. Qed.

Section Wire.

Context {P : Platform}.
Variable a : capture_args.

Lemma send_command_wire (o : send_env) (command data : Z) (w : world) :
  w_sent (snd (pyvac248ipnative_impl_send_command_ o (camera_ip a) (camera_port a)
                 command data (send_command_delay_ms a) w))
  = w_sent w ++ sent_if o (to_camera a (command_buf command data)).
Proof.
  unfold sent_if. destruct (se_sendto o) as [| c] eqn:Es.
  - rewrite (send_command_sent _ _ _ _ _ _ _ Es).
    pose proof (sleep_world (send_command_delay_ms a) (se_sleep o) 0
                  (put_on_wire (to_camera a (command_buf command data)) w)) as Hw.
    apply (f_equal w_sent) in Hw. exact Hw.
  - rewrite (send_command_not_sent _ _ _ _ _ _ _ _ Es). cbn. symmetry. apply app_nil_r.
Qed.

Lemma restore_socket_wire (e : env) (before required : Z) (w : world) :
  w_sent (snd (restore_socket a e before required w)) = w_sent w.
Proof.
  unfold restore_socket, bind, pyvac248ipnative_impl_set_socket_timeout_, bind.
  destruct (negb (required =? before)); [| reflexivity].
  destruct (env_restore_setfl e), (env_rcvtimeo e), (env_sndtimeo e); reflexivity.
Qed.

Lemma set_output_wire (st : loop_state) (failed : bool) (w : world) :
  w_sent (snd (set_output st failed w)) = w_sent w.
Proof.
  unfold set_output. cbv zeta.
  match goal with |- context [if ?c then (_, set_errno _ _) else _] => destruct c end;
    reflexivity.
Qed.

(** X23.  A call that gets past Init and returns has put on the wire, in
    this order and all to the camera's address and port, Stop, Start and
    SetExposure before the loop and Stop after it, each one present
    exactly when its [sendto] succeeded, and nothing else. *)
Theorem commands_in_order (e : env) (dst0 : mem) (packets_received0 : Z) (w : world)
    (r : capture_return) (w' : world) :
  init_succeeds e w ->
  pyvac248ipnative_capture_packets a e dst0 packets_received0 w = (Some r, w') ->
  w_sent w'
  = w_sent w
    ++ sent_if (env_stop1 e) (to_camera a (command_buf 0x5a 0x00))
    ++ sent_if (env_start e)
         (to_camera a (command_buf 0x5a (to_uint (Z.lor (video_format a) 0x80))))
    ++ sent_if (env_exposure e) (to_camera a (command_buf 0xc0 (to_uint (exposure a))))
    ++ sent_if (env_stop2 e) (to_camera a (command_buf 0x5a 0x00)).
Proof.
  intros (Hg & Hfl & Hs) Hrun.
  pose proof (keeps_drop_packets same_sent same_sent_refl same_sent_trans same_sent_errno)
    as Hdrop.
  unfold pyvac248ipnative_capture_packets, bind, fcntl_getfl in Hrun.
  rewrite Hg in Hrun. apply Z.ltb_ge in Hfl. rewrite Hfl in Hrun.
  assert (Hinit : exists w0,
            same_sent w w0
            /\ (if negb (Z.lor (so_flags (w_sock w)) O_NONBLOCK =? so_flags (w_sock w))
                then fcntl_setfl (env_setfl e) (Z.lor (so_flags (w_sock w)) O_NONBLOCK)
                else ret 0) w = (0, w0)).
  { destruct (Z.eqb_spec (Z.lor (so_flags (w_sock w)) O_NONBLOCK) (so_flags (w_sock w)))
      as [E | E]; cbn [negb].
    - exists w. split; reflexivity.
    - rewrite (Hs E). eexists. split; [| reflexivity]. reflexivity. }
  destruct Hinit as (w0 & Hw0 & E0). rewrite E0 in Hrun.
  change (0 <? 0) with false in Hrun. cbv iota in Hrun.
  unfold pyvac248ipnative_impl_send_command_stop_,
    pyvac248ipnative_impl_send_command_start_,
    pyvac248ipnative_impl_send_command_exposure_ in Hrun.
  pose proof (send_command_wire (env_stop1 e) 0x5a 0x00 w0) as H1.
  destruct (pyvac248ipnative_impl_send_command_ (env_stop1 e) _ _ _ _ _ w0) as [r1 w1].
  pose proof (Hdrop (env_drop1 e) (drop_packets_delay_ms a) w1) as H2.
  destruct (pyvac248ipnative_impl_drop_packets_ _ _ w1) as [r2 w2].
  pose proof (send_command_wire (env_start e) 0x5a
                (to_uint (Z.lor (video_format a) 0x80)) w2) as H3.
  destruct (pyvac248ipnative_impl_send_command_ (env_start e) _ _ _ _ _ w2) as [r3 w3].
  pose proof (send_command_wire (env_exposure e) 0xc0 (to_uint (exposure a)) w3) as H4.
  destruct (pyvac248ipnative_impl_send_command_ (env_exposure e) _ _ _ _ _ w3) as [r4 w4].
  pose proof (keeps_capture_loop same_sent same_sent_refl same_sent_trans same_sent_errno
                a (env_arrivals e)
                {| packets_received_ := 0; incorrect_packets_length := 0; result := 0;
                   errno_ := 0; dst := init_markers (dst_size a) dst0 |} w4) as H5.
  destruct (capture_loop a (env_arrivals e) _ w4) as [[st | st] w5]; [| discriminate].
  unfold after_loop, bind, pyvac248ipnative_impl_send_command_stop_, ret in Hrun.
  pose proof (send_command_wire (env_stop2 e) 0x5a 0x00 w5) as H6.
  destruct (pyvac248ipnative_impl_send_command_ (env_stop2 e) _ _ _ _ _ w5) as [r6 w6].
  pose proof (keeps_sleep same_sent same_sent_refl same_sent_trans same_sent_errno
                (get_frame_delay_ms a) (env_settle e) w6) as H7.
  destruct (pyvac248ipnative_impl_sleep_ms_ _ _ w6) as [r7 w7].
  pose proof (Hdrop (env_drop2 e) (drop_packets_delay_ms a) w7) as H8.
  destruct (pyvac248ipnative_impl_drop_packets_ _ _ w7) as [r8 w8].
  pose proof (restore_socket_wire e (so_flags (w_sock w))
                (Z.lor (so_flags (w_sock w)) O_NONBLOCK) w8) as H9.
  destruct (restore_socket a e _ _ w8) as [failed w9].
  pose proof (set_output_wire st failed w9) as H10.
  destruct (set_output st failed w9) as [r10 w10].
  injection Hrun as _ <-.
  unfold same_sent in *. cbn [snd] in *.
  rewrite H10, H9, H8, H7, H6, H5, H4, H3, H2, H1, Hw0.
  rewrite <- !app_assoc. reflexivity.
Qed.

End Wire.

(** ** Sends, sleeps and drains do not decide the outcome *)

Section Independence.

Context {P : Platform}.
Variable a : capture_args.

Lemma loop_body_any_world (ev : arrival) (st st' : loop_state) (w w' : world) :
  same_locals st st' ->
  same_step (fst (loop_body a ev st w)) (fst (loop_body a ev st' w')).
Proof.
  destruct st as [n i r c d], st' as [n' i' r' c' d'].
  intros (Hn & Hi & Hr & Hd). cbn in Hn, Hi, Hr, Hd. subst n' i' r' d'.
  unfold same_step, loop_body, bind, poll, recvfrom.
  cbn [packets_received_ incorrect_packets_length result errno_ dst].
  destruct (poll_res ev =? 1).
  - destruct (recvfrom_res ev <? 0) eqn:Erecv; cbv beta iota zeta; rewrite Erecv;
      cbn [dst with_dst with_incorrect with_received with_result with_errno_
           packets_received_ incorrect_packets_length result errno_];
      repeat match goal with
             | |- context [if ?c then _ else _] => destruct c
             end; cbn; repeat split; reflexivity.
  - destruct (poll_res ev =? 0); cbn; repeat split; reflexivity.
Qed.

Lemma capture_loop_any_world (evs : list arrival) :
  forall (st st' : loop_state) (w w' : world),
    same_locals st st' ->
    same_run (fst (capture_loop a evs st w)) (fst (capture_loop a evs st' w')).
Proof.
  induction evs as [| ev evs IH]; intros st st' w w' Hl.
  - cbn. destruct Hl as (Hn & Hrest). rewrite <- Hn.
    destruct (packets_received_ st <? dst_size a); cbn; split; assumption.
  - cbn [capture_loop]. pose proof Hl as (Hn & Hrest). rewrite <- Hn.
    destruct (packets_received_ st <? dst_size a); [| cbn; exact Hl].
    unfold bind.
    pose proof (loop_body_any_world ev st st' w w' Hl) as Hb.
    destruct (loop_body a ev st w) as [[s1 | s1] w1];
      destruct (loop_body a ev st' w') as [[s2 | s2] w2]; cbn in Hb; try contradiction.
    + apply IH. exact Hb.
    + cbn. exact Hb.
Qed.

Lemma restoration_failure_same (e1 e2 : env) :
  same_but_commands e1 e2 -> restoration_failure e1 = restoration_failure e2.
Proof.
  intros (_ & _ & _ & H1 & H2 & H3). unfold restoration_failure.
  rewrite H1, H2, H3. reflexivity.
Qed.

Lemma restore_socket_failed (e : env) (before required : Z) (w : world) :
  fst (restore_socket a e before required w)
  = negb (required =? before)
    && match restoration_failure e with Some _ => true | None => false end.
Proof.
  destruct (Z.eqb_spec required before) as [-> | Hne]; cbn [negb andb].
  - rewrite restore_socket_skipped. reflexivity.
  - destruct (restore_socket_spec a e before required w Hne) as (w' & E & _).
    rewrite E. reflexivity.
Qed.

Lemma init_decided (e : env) (w : world) :
  init_succeeds e w
  \/ ((exists c, env_getfl e = Fails c)
      \/ so_flags (w_sock w) < 0
      \/ (Z.lor (so_flags (w_sock w)) O_NONBLOCK <> so_flags (w_sock w)
          /\ exists c, env_setfl e = Fails c)).
Proof.
  destruct (env_getfl e) as [| c] eqn:Eg.
  2: { right. left. exists c. reflexivity. }
  destruct (Z_lt_dec (so_flags (w_sock w)) 0) as [Hneg | Hpos].
  { right. right. left. exact Hneg. }
  destruct (env_setfl e) as [| c] eqn:Es.
  { left. split; [exact Eg | split; [lia | intros _; exact Es]]. }
  destruct (Z.eq_dec (Z.lor (so_flags (w_sock w)) O_NONBLOCK) (so_flags (w_sock w)))
    as [E | E].
  - left. split; [exact Eg | split; [lia | intros H; contradiction]].
  - right. right. right. split; [exact E | exists c; reflexivity].
Qed.

(** X24.  The status, the count and the buffer a call hands back do not
    depend on how its sends, sleeps and drains go: two environments that
    agree on the [fcntl] and [setsockopt] outcomes and on the arrivals
    give the same status, count and buffer. *)
Theorem command_failures_do_not_matter (e1 e2 : env) (dst0 : mem)
    (packets_received0 : Z) (w : world) :
  same_but_commands e1 e2 ->
  same_return (fst (pyvac248ipnative_capture_packets a e1 dst0 packets_received0 w))
              (fst (pyvac248ipnative_capture_packets a e2 dst0 packets_received0 w)).
Proof.
  intros Hsame. pose proof Hsame as (Hg & Hs & Harr & _).
  pose proof (restoration_failure_same e1 e2 Hsame) as Hrf.
  destruct (init_decided e1 w) as [Hinit | Hfail].
  - assert (Hinit2 : init_succeeds e2 w).
    { destruct Hinit as (H1 & H2 & H3). split; [congruence | split; [exact H2 |]].
      intros H. rewrite <- Hs. apply H3. exact H. }
    destruct Hinit as (H1 & H2 & H3). destruct Hinit2 as (H1' & _ & H3').
    destruct (capture_past_init a e1 dst0 packets_received0 w H1 H2 H3) as (w1 & _ & E1).
    destruct (capture_past_init a e2 dst0 packets_received0 w H1' H2 H3') as (w2 & _ & E2).
    rewrite E1, E2. rewrite <- Harr.
    pose proof (capture_loop_any_world (env_arrivals e1) (entry_state a dst0)
                  (entry_state a dst0) w1 w2 ltac:(repeat split)) as Hrun.
    destruct (capture_loop a (env_arrivals e1) (entry_state a dst0) w1) as [[st1 | st1] w1'];
      destruct (capture_loop a (env_arrivals e1) (entry_state a dst0) w2)
        as [[st2 | st2] w2']; cbn in Hrun; try contradiction; [| exact I].
    destruct (after_loop_spec a e1 (so_flags (w_sock w))
                (Z.lor (so_flags (w_sock w)) O_NONBLOCK) st1 w1') as (v1 & _ & A1).
    destruct (after_loop_spec a e2 (so_flags (w_sock w))
                (Z.lor (so_flags (w_sock w)) O_NONBLOCK) st2 w2') as (v2 & _ & A2).
    rewrite A1, A2.
    pose proof (restore_socket_failed e1 (so_flags (w_sock w))
                  (Z.lor (so_flags (w_sock w)) O_NONBLOCK) v1) as F1.
    pose proof (restore_socket_failed e2 (so_flags (w_sock w))
                  (Z.lor (so_flags (w_sock w)) O_NONBLOCK) v2) as F2.
    rewrite <- Hrf in F2.
    destruct (restore_socket a e1 _ _ v1) as [f1 u1].
    destruct (restore_socket a e2 _ _ v2) as [f2 u2].
    cbn [fst] in F1, F2. rewrite <- F1 in F2. subst f2.
    pose proof (set_output_spec st1 f1 u1) as S1.
    pose proof (set_output_spec st2 f1 u2) as S2.
    destruct (set_output st1 f1 u1) as [r1 x1].
    destruct (set_output st2 f1 u2) as [r2 x2].
    destruct S1 as (_ & Hst1 & Hc1 & Hb1 & _).
    destruct S2 as (_ & Hst2 & Hc2 & Hb2 & _).
    destruct Hrun as (Hn & _ & Hr & Hd).
    cbn. rewrite Hr in Hst1.
    assert (Hstatus : status r1 = status r2) by congruence.
    split; [exact Hstatus | split].
    + rewrite Hc1, Hc2, Hstatus, Hn. reflexivity.
    + intros q. rewrite Hb1, Hb2, Hd. reflexivity.
  - assert (Hfail2 : (exists c, env_getfl e2 = Fails c)
                     \/ so_flags (w_sock w) < 0
                     \/ (Z.lor (so_flags (w_sock w)) O_NONBLOCK <> so_flags (w_sock w)
                         /\ exists c, env_setfl e2 = Fails c)).
    { rewrite <- Hg, <- Hs. exact Hfail. }
    rewrite (capture_early a e1 dst0 packets_received0 w Hfail).
    rewrite (capture_early a e2 dst0 packets_received0 w Hfail2).
    cbn. repeat split.
Qed.

End Independence.

(** ** Two more facts about the helpers *)

(** X1.  [sleep_ms_] returns 0 exactly when every [nanosleep] failure it
    meets is [EINTR], after which it tries again, and -1 otherwise; it
    changes nothing in the world but [errno]. *)
Theorem sleep_resumes_after_interrupts {P : Platform} (delay_ms : Z)
    (interrupts : list Z) (w : world) :
  let run := pyvac248ipnative_impl_sleep_ms_ delay_ms interrupts w in
  (fst run = 0 <-> Forall (fun e => e = EINTR) interrupts)
  /\ (fst run = 0 \/ fst run = -1)
  /\ w_sock (snd run) = w_sock w
  /\ w_sent (snd run) = w_sent w
  /\ (interrupts = [] -> w_errno (snd run) = w_errno w).
Proof.
  cbv zeta.
  pose proof (sleep_world delay_ms interrupts 0 w) as Hw.
  split; [apply sleep_zero_iff |].
  split; [apply sleep_result |].
  split; [apply (f_equal w_sock) in Hw; exact Hw |].
  split; [apply (f_equal w_sent) in Hw; exact Hw |].
  intros ->. reflexivity.
Qed.

(** X8.  The loop of lines 149-152 sets to 0 every byte whose offset is a
    multiple of 1473 in [0, dst_size) and leaves every other byte of the
    buffer as it was. *)
Theorem init_clears_only_markers (dst_size : Z) (m : mem) (q : Z) :
  (0 <= q < dst_size /\ q mod 1473 = 0 -> init_markers dst_size m q = 0)
  /\ (q < 0 \/ dst_size <= q \/ q mod 1473 <> 0 -> init_markers dst_size m q = m q).
Proof.
  rewrite init_markers_spec. split.
  - intros ([H0 H1] & Hm).
    apply Z.leb_le in H0. apply Z.ltb_lt in H1. apply Z.eqb_eq in Hm.
    rewrite H0, H1, Hm. reflexivity.
  - intros [H | [H | H]].
    + apply Z.leb_gt in H. rewrite H. reflexivity.
    + apply Z.ltb_ge in H. rewrite H, andb_false_r. reflexivity.
    + apply Z.eqb_neq in H. rewrite H, andb_false_r. reflexivity.
Qed.

(** ** These facts at concrete inputs *)

(** Closes a fact about concrete numbers. *)
Ltac concrete_fact :=
  vm_compute; try reflexivity; try (intros H; discriminate H).

(** Closes the facts that make concrete arrivals accepted data packets. *)
Ltac concrete_data :=
  split; [reflexivity |]; left;
  split; [split; reflexivity |];
  split; [split; concrete_fact |];
  split; concrete_fact.

Lemma sleep_resumes_after_interrupts_witness :
  let run := pyvac248ipnative_impl_sleep_ms_ (P := linux) 10 [4; 4] (example_world 2) in
  (fst run = 0 <-> Forall (fun e => e = @EINTR linux) [4; 4])
  /\ (fst run = 0 \/ fst run = -1)
  /\ w_sock (snd run) = w_sock (example_world 2)
  /\ w_sent (snd run) = w_sent (example_world 2)
  /\ ([4; 4] = [] -> w_errno (snd run) = w_errno (example_world 2)).
Proof.
  exact (sleep_resumes_after_interrupts (P := linux) 10 [4; 4] (example_world 2)).
Defined.

Lemma sleep_stops_at_first_error_witness :
  pyvac248ipnative_impl_sleep_ms_ (P := linux) 10 ([4] ++ 22 :: [4]) (example_world 2)
  = (-1, set_errno 22 (example_world 2)).
Proof.
  apply (sleep_stops_at_first_error (P := linux) 10 [4] [4] 22 (example_world 2)).
  - repeat constructor.
  - cbn. lia.
Defined.

Lemma timeval_of_ms_exact_witness :
  0 <= tv_sec (timeval_of_ms 1500)
  /\ 0 <= tv_usec (timeval_of_ms 1500) < 1000000
  /\ tv_sec (timeval_of_ms 1500) * 1000000 + tv_usec (timeval_of_ms 1500) = 1500 * 1000.
Proof. apply (timeval_of_ms_exact 1500). lia. Defined.

Lemma timeval_of_negative_ms_witness :
  tv_sec (timeval_of_ms (-1500)) <= 0
  /\ -1000000 < tv_usec (timeval_of_ms (-1500)) <= 0
  /\ (tv_sec (timeval_of_ms (-1500)) < 0 \/ tv_usec (timeval_of_ms (-1500)) < 0).
Proof. apply (timeval_of_negative_ms (-1500)). lia. Defined.

Lemma init_clears_only_markers_witness :
  (0 <= 1473 < 3000 /\ 1473 mod 1473 = 0 -> init_markers 3000 used_before 1473 = 0)
  /\ (1473 < 0 \/ 3000 <= 1473 \/ 1473 mod 1473 <> 0 ->
      init_markers 3000 used_before 1473 = used_before 1473).
Proof. exact (init_clears_only_markers 3000 used_before 1473). Defined.

Lemma foreign_packet_ignored_witness :
  let a := example_args 3 in
  let ev := datagram 1472 12345 [1; 0; 0; 0] in
  let st := entry_state a zeroed in
  let w := example_world 2 in
  exists st',
    loop_body a ev st w = (Continue st', w)
    /\ packets_received_ st' = packets_received_ st
    /\ incorrect_packets_length st' = incorrect_packets_length st
    /\ result st' = result st
    /\ errno_ st' = errno_ st
    /\ (forall i, dst st' (i * 1473) = dst st (i * 1473))
    /\ (forall q, q < packets_received_ st * 1473 + 1
                  \/ packets_received_ st * 1473 + 1473 <= q ->
                  dst st' q = dst st q).
Proof.
  cbv zeta.
  apply (foreign_packet_ignored (example_args 3) (datagram 1472 12345 [1; 0; 0; 0])
           (entry_state (example_args 3) zeroed) (example_world 2)).
  - left. split; reflexivity.
  - concrete_fact.
  - cbn. lia.
  - cbn. unfold INT_MAX. lia.
Defined.

Lemma invalid_offset_not_counted_witness :
  let a := example_args 3 in
  let ev := datagram 1472 camera [1; 0; 0; 1] in
  let st := entry_state a zeroed in
  let w := example_world 2 in
  exists st',
    loop_body a ev st w = (Continue st', w)
    /\ packets_received_ st' = packets_received_ st
    /\ incorrect_packets_length st' = 0
    /\ result st' = result st
    /\ (forall i, dst st' (i * 1473) = dst st (i * 1473)).
Proof.
  cbv zeta.
  apply (invalid_offset_not_counted (example_args 3) (datagram 1472 camera [1; 0; 0; 1])
           (entry_state (example_args 3) zeroed) (example_world 2)).
  - split; reflexivity.
  - reflexivity.
  - left. concrete_fact.
  - cbn. unfold INT_MIN, INT_MAX. lia.
  - cbn. lia.
  - cbn. unfold INT_MAX. lia.
Defined.

Lemma data_packet_stored_witness :
  let a := example_args 3 in
  let st := entry_state a zeroed in
  let w := example_world 2 in
  exists st',
    loop_body a second_packet st w = (Continue st', w)
    /\ packets_received_ st' = packets_received_ st + 1
    /\ incorrect_packets_length st' = 0
    /\ result st' = result st
    /\ (forall j, 0 <= j < 1472 ->
                  dst st' (packets_received_ st * 1473 + 1 + j)
                  = to_uchar (nth (Z.to_nat j) (payload second_packet) 0))
    /\ (forall q, q < packets_received_ st * 1473 + 1
                  \/ packets_received_ st * 1473 + 1473 <= q ->
                  dst st' q = dst st q).
Proof.
  cbv zeta.
  apply (data_packet_stored (example_args 3) second_packet
           (entry_state (example_args 3) zeroed) (example_world 2)).
  - split; reflexivity.
  - reflexivity.
  - split; concrete_fact.
  - concrete_fact.
  - split; concrete_fact.
  - cbn. lia.
  - cbn. unfold INT_MAX. lia.
Defined.

Lemma config_packet_stored_witness :
  let a := example_args 3 in
  let st := entry_state a zeroed in
  let w := example_world 2 in
  exists st',
    loop_body a config_packet st w = (Continue st', w)
    /\ packets_received_ st' = packets_received_ st + 1
    /\ incorrect_packets_length st' = 0
    /\ result st' = result st
    /\ dst st' (packets_received_ st * 1473) = 1
    /\ (forall j, 0 <= j < 48 ->
                  dst st' (packets_received_ st * 1473 + 1 + j)
                  = to_uchar (nth (Z.to_nat j) (payload config_packet) 0))
    /\ (forall q, q < packets_received_ st * 1473
                  \/ packets_received_ st * 1473 + 49 <= q ->
                  dst st' q = dst st q).
Proof.
  cbv zeta.
  apply (config_packet_stored (example_args 3) config_packet
           (entry_state (example_args 3) zeroed) (example_world 2)).
  - split; reflexivity.
  - reflexivity.
  - cbn. lia.
  - cbn. unfold INT_MAX. lia.
Defined.

Lemma filled_slots_never_overwritten_witness :
  let a := example_args 3 in
  let st := with_received 1 (entry_state a used_before) in
  let w := example_world 2 in
  packets_received_ st
  <= packets_received_ (final_state (fst (capture_loop a example_feed st w)))
  <= dst_size a
  /\ forall q, q < packets_received_ st * 1473 ->
               dst (final_state (fst (capture_loop a example_feed st w))) q = dst st q.
Proof.
  cbv zeta.
  apply (filled_slots_never_overwritten (example_args 3) example_feed
           (with_received 1 (entry_state (example_args 3) used_before)) (example_world 2)).
  - cbn. lia.
  - cbn. unfold INT_MAX. lia.
Defined.

Lemma status_is_one_of_four_witness :
  let run :=
    pyvac248ipnative_capture_packets (P := linux) (example_args 3)
      (lossy_env example_feed) zeroed 0 (example_world 2) in
  status (the_return (fst run)) = -1 \/ status (the_return (fst run)) = 0
  \/ status (the_return (fst run)) = 1 \/ status (the_return (fst run)) = 2.
Proof.
  cbv zeta.
  apply (status_is_one_of_four (P := linux) (example_args 3) (lossy_env example_feed)
           zeroed 0 (example_world 2) _
           (snd (pyvac248ipnative_capture_packets (P := linux) (example_args 3)
                   (lossy_env example_feed) zeroed 0 (example_world 2)))).
  vm_compute. reflexivity.
Defined.

Lemma count_within_buffer_witness :
  let a := example_args 3 in
  let run :=
    pyvac248ipnative_capture_packets (P := linux) a (calm_env example_feed) zeroed 0
      (example_world 2) in
  0 <= packets_received (the_return (fst run)) <= Z.max 0 (dst_size a).
Proof.
  cbv zeta.
  apply (count_within_buffer (P := linux) (example_args 3) (calm_env example_feed)
           zeroed 0 (example_world 2) _
           (snd (pyvac248ipnative_capture_packets (P := linux) (example_args 3)
                   (calm_env example_feed) zeroed 0 (example_world 2)))).
  - split; [reflexivity | split; [cbn; lia | reflexivity]].
  - vm_compute. reflexivity.
  - cbn. unfold INT_MAX. lia.
Defined.

Lemma buffer_bounds_respected_witness :
  let a := example_args 3 in
  let run :=
    pyvac248ipnative_capture_packets (P := linux) a (calm_env example_feed) used_before 0
      (example_world 2) in
  buffer (the_return (fst run)) (dst_size a * 1473) = used_before (dst_size a * 1473).
Proof.
  cbv zeta.
  apply (buffer_bounds_respected (P := linux) (example_args 3) (calm_env example_feed)
           used_before 0 (example_world 2) _
           (snd (pyvac248ipnative_capture_packets (P := linux) (example_args 3)
                   (calm_env example_feed) used_before 0 (example_world 2)))).
  - vm_compute. reflexivity.
  - cbn. unfold INT_MAX. lia.
  - right. lia.
Defined.


Lemma timeout_reports_accepted_count_witness :
  let a := example_args 3 in
  let e := calm_env ([first_packet; second_packet] ++ no_datagram :: [junk]) in
  exists r w',
    pyvac248ipnative_capture_packets (P := linux) a e zeroed 0 (example_world 2)
    = (Some r, w')
    /\ status r = 1
    /\ packets_received r = Z.of_nat (length [first_packet; second_packet]).
Proof.
  cbv zeta.
  apply (timeout_reports_accepted_count (P := linux) (example_args 3)
           (calm_env ([first_packet; second_packet] ++ no_datagram :: [junk]))
           zeroed 0 (example_world 2) [first_packet; second_packet] [junk] no_datagram).
  - split; [reflexivity | split; [cbn; lia | reflexivity]].
  - right. reflexivity.
  - reflexivity.
  - constructor; [concrete_data | constructor; [concrete_data | constructor]].
  - reflexivity.
  - cbn. unfold INT_MAX. lia.
  - cbn. unfold INT_MAX. lia.
Defined.

Lemma frames_complete_reports_success_witness :
  let a := example_args 3 in
  let e := calm_env ([first_packet; second_packet] ++ late_packet :: [junk]) in
  exists r w',
    pyvac248ipnative_capture_packets (P := linux) a e zeroed 0 (example_world 2)
    = (Some r, w')
    /\ status r = 0
    /\ packets_received r = Z.of_nat (length [first_packet; second_packet]).
Proof.
  cbv zeta.
  apply (frames_complete_reports_success (P := linux) (example_args 3)
           (calm_env ([first_packet; second_packet] ++ late_packet :: [junk]))
           zeroed 0 (example_world 2) [first_packet; second_packet] [junk] late_packet).
  - split; [reflexivity | split; [cbn; lia | reflexivity]].
  - right. reflexivity.
  - reflexivity.
  - constructor; [concrete_data | constructor; [concrete_data | constructor]].
  - split; [split; reflexivity |]. split; [reflexivity |].
    split; [concrete_fact |]. split; [concrete_fact |]. split; concrete_fact.
  - cbn. unfold INT_MAX. lia.
  - cbn. unfold INT_MAX. lia.
Defined.

Lemma full_buffer_reports_success_witness :
  let a := example_args 2 in
  let e := calm_env ([first_packet; config_packet] ++ [junk]) in
  exists r w',
    pyvac248ipnative_capture_packets (P := linux) a e zeroed 0 (example_world 2)
    = (Some r, w')
    /\ status r = 0
    /\ packets_received r = dst_size a.
Proof.
  cbv zeta.
  apply (full_buffer_reports_success (P := linux) (example_args 2)
           (calm_env ([first_packet; config_packet] ++ [junk]))
           zeroed 0 (example_world 2) [first_packet; config_packet] [junk]).
  - split; [reflexivity | split; [cbn; lia | reflexivity]].
  - right. reflexivity.
  - reflexivity.
  - constructor; [concrete_data |].
    constructor; [| constructor].
    split; [reflexivity | right; split; reflexivity].
  - reflexivity.
  - cbn. unfold INT_MAX. lia.
  - cbn. unfold INT_MAX. lia.
Defined.

Lemma capture_returns_at_timeout_or_failure_witness :
  exists r w',
    pyvac248ipnative_capture_packets (P := linux) (example_args 3)
      (calm_env ([junk; sentinel] ++ no_datagram :: [junk])) zeroed 0 (example_world 2)
    = (Some r, w').
Proof.
  apply (capture_returns_at_timeout_or_failure (P := linux) (example_args 3)
           (calm_env ([junk; sentinel] ++ no_datagram :: [junk])) zeroed 0
           (example_world 2) [junk; sentinel] [junk] no_datagram).
  - reflexivity.
  - left. reflexivity.
Defined.

Lemma failed_init_touches_nothing_witness :
  pyvac248ipnative_capture_packets (P := linux) (example_args 3) bad_descriptor_env
    used_before 7 (example_world 2)
  = (Some {| status := -1; packets_received := 7; buffer := used_before |},
     set_errno 9 (example_world 2)).
Proof.
  apply (failed_init_touches_nothing (P := linux) (example_args 3) bad_descriptor_env
           used_before 7 (example_world 2) 9).
  left. reflexivity.
Defined.

Lemma commands_in_order_witness :
  let a := example_args 3 in
  let e := lossy_env example_feed in
  let w := example_world 2 in
  let run := pyvac248ipnative_capture_packets (P := linux) a e zeroed 0 w in
  w_sent (snd run)
  = w_sent w
    ++ sent_if (env_stop1 e) (to_camera a (command_buf 0x5a 0x00))
    ++ sent_if (env_start e)
         (to_camera a (command_buf 0x5a (to_uint (Z.lor (video_format a) 0x80))))
    ++ sent_if (env_exposure e) (to_camera a (command_buf 0xc0 (to_uint (exposure a))))
    ++ sent_if (env_stop2 e) (to_camera a (command_buf 0x5a 0x00)).
Proof.
  cbv zeta.
  apply (commands_in_order (P := linux) (example_args 3) (lossy_env example_feed)
           zeroed 0 (example_world 2)
           (the_return
              (fst (pyvac248ipnative_capture_packets (P := linux) (example_args 3)
                      (lossy_env example_feed) zeroed 0 (example_world 2))))).
  - split; [reflexivity | split; [cbn; lia | reflexivity]].
  - vm_compute. reflexivity.
Defined.

Lemma command_failures_do_not_matter_witness :
  same_return
    (fst (pyvac248ipnative_capture_packets (P := linux) (example_args 3)
            (calm_env example_feed) zeroed 0 (example_world 2)))
    (fst (pyvac248ipnative_capture_packets (P := linux) (example_args 3)
            (lossy_env example_feed) zeroed 0 (example_world 2))).
Proof.
  apply (command_failures_do_not_matter (P := linux) (example_args 3)
           (calm_env example_feed) (lossy_env example_feed) zeroed 0 (example_world 2)).
  repeat split.
Defined.

(** ** The command datagrams *)

Section Layout.

Context {P : Platform}.

Lemma send_command_wire_any (o : send_env) (ip port command data delay_ms : Z)
    (w : world) :
  w_sent (snd (pyvac248ipnative_impl_send_command_ o ip port command data delay_ms w))
  = w_sent w
    ++ sent_if o {| sd_ip := ip; sd_port := port; sd_bytes := command_buf command data |}.
Proof.
  unfold sent_if. destruct (se_sendto o) as [| c] eqn:Es.
  - rewrite (send_command_sent _ _ _ _ _ _ _ Es).
    pose proof (sleep_world delay_ms (se_sleep o) 0
                  (put_on_wire {| sd_ip := ip; sd_port := port;
                                  sd_bytes := command_buf command data |} w)) as Hw.
    apply (f_equal w_sent) in Hw. exact Hw.
  - rewrite (send_command_not_sent _ _ _ _ _ _ _ _ Es). cbn. symmetry. apply app_nil_r.
Qed.

(** What a call that gets past Init has put on the wire when it ends,
    with a return value or out of arrivals. *)
Lemma capture_wire (a : capture_args) (e : env) (dst0 : mem) (packets_received0 : Z)
    (w : world) (o : option capture_return) (w' : world) :
  init_succeeds e w ->
  pyvac248ipnative_capture_packets a e dst0 packets_received0 w = (o, w') ->
  w_sent w'
  = w_sent w
    ++ sent_if (env_stop1 e) (to_camera a (command_buf 0x5a 0x00))
    ++ sent_if (env_start e)
         (to_camera a (command_buf 0x5a (to_uint (Z.lor (video_format a) 0x80))))
    ++ sent_if (env_exposure e) (to_camera a (command_buf 0xc0 (to_uint (exposure a))))
    ++ match o with
       | Some _ => sent_if (env_stop2 e) (to_camera a (command_buf 0x5a 0x00))
       | None => []
       end.
Proof.
  intros (Hg & Hfl & Hs) Hrun.
  pose proof (keeps_drop_packets same_sent same_sent_refl same_sent_trans same_sent_errno)
    as Hdrop.
  unfold pyvac248ipnative_capture_packets, bind, fcntl_getfl in Hrun.
  rewrite Hg in Hrun. apply Z.ltb_ge in Hfl. rewrite Hfl in Hrun.
  assert (Hinit : exists w0,
            same_sent w w0
            /\ (if negb (Z.lor (so_flags (w_sock w)) O_NONBLOCK =? so_flags (w_sock w))
                then fcntl_setfl (env_setfl e) (Z.lor (so_flags (w_sock w)) O_NONBLOCK)
                else ret 0) w = (0, w0)).
  { destruct (Z.eqb_spec (Z.lor (so_flags (w_sock w)) O_NONBLOCK) (so_flags (w_sock w)))
      as [E | E]; cbn [negb].
    - exists w. split; reflexivity.
    - rewrite (Hs E). eexists. split; [| reflexivity]. reflexivity. }
  destruct Hinit as (w0 & Hw0 & E0). rewrite E0 in Hrun.
  change (0 <? 0) with false in Hrun. cbv iota in Hrun.
  unfold pyvac248ipnative_impl_send_command_stop_,
    pyvac248ipnative_impl_send_command_start_,
    pyvac248ipnative_impl_send_command_exposure_ in Hrun.
  pose proof (send_command_wire_any (env_stop1 e) (camera_ip a) (camera_port a)
                0x5a 0x00 (send_command_delay_ms a) w0) as H1.
  destruct (pyvac248ipnative_impl_send_command_ (env_stop1 e) _ _ _ _ _ w0) as [r1 w1].
  pose proof (Hdrop (env_drop1 e) (drop_packets_delay_ms a) w1) as H2.
  destruct (pyvac248ipnative_impl_drop_packets_ _ _ w1) as [r2 w2].
  pose proof (send_command_wire_any (env_start e) (camera_ip a) (camera_port a) 0x5a
                (to_uint (Z.lor (video_format a) 0x80)) (send_command_delay_ms a) w2)
    as H3.
  destruct (pyvac248ipnative_impl_send_command_ (env_start e) _ _ _ _ _ w2) as [r3 w3].
  pose proof (send_command_wire_any (env_exposure e) (camera_ip a) (camera_port a) 0xc0
                (to_uint (exposure a)) (send_command_delay_ms a) w3) as H4.
  destruct (pyvac248ipnative_impl_send_command_ (env_exposure e) _ _ _ _ _ w3) as [r4 w4].
  pose proof (keeps_capture_loop same_sent same_sent_refl same_sent_trans same_sent_errno
                a (env_arrivals e)
                {| packets_received_ := 0; incorrect_packets_length := 0; result := 0;
                   errno_ := 0; dst := init_markers (dst_size a) dst0 |} w4) as H5.
  destruct (capture_loop a (env_arrivals e) _ w4) as [[st | st] w5].
  - unfold after_loop, bind, pyvac248ipnative_impl_send_command_stop_, ret in Hrun.
    pose proof (send_command_wire_any (env_stop2 e) (camera_ip a) (camera_port a)
                  0x5a 0x00 (send_command_delay_ms a) w5) as H6.
    destruct (pyvac248ipnative_impl_send_command_ (env_stop2 e) _ _ _ _ _ w5) as [r6 w6].
    pose proof (keeps_sleep same_sent same_sent_refl same_sent_trans same_sent_errno
                  (get_frame_delay_ms a) (env_settle e) w6) as H7.
    destruct (pyvac248ipnative_impl_sleep_ms_ _ _ w6) as [r7 w7].
    pose proof (Hdrop (env_drop2 e) (drop_packets_delay_ms a) w7) as H8.
    destruct (pyvac248ipnative_impl_drop_packets_ _ _ w7) as [r8 w8].
    pose proof (restore_socket_wire a e (so_flags (w_sock w))
                  (Z.lor (so_flags (w_sock w)) O_NONBLOCK) w8) as H9.
    destruct (restore_socket a e _ _ w8) as [failed w9].
    pose proof (set_output_wire st failed w9) as H10.
    destruct (set_output st failed w9) as [r10 w10].
    injection Hrun as <- <-.
    unfold same_sent, to_camera in *. cbn [snd] in *.
    rewrite H10, H9, H8, H7, H6, H5, H4, H3, H2, H1, Hw0.
    rewrite <- !app_assoc. reflexivity.
  - unfold ret in Hrun. injection Hrun as <- <-.
    unfold same_sent, to_camera in *. cbn [snd] in *.
    rewrite H5, H4, H3, H2, H1, Hw0.
    rewrite <- !app_assoc, app_nil_r. reflexivity.
Qed.

(** C8.  Every command datagram that is transmitted is the 8-byte array
    [opcode][payload][0][0][0][0][0][checksum] whose checksum is
    (opcode + payload) mod 256.  [send_command_] puts exactly this array
    on the wire, once, when its [sendto] succeeds and nothing when it
    fails, opcode and payload being the low bytes of its arguments (first
    conjunct).  The Stop macro sends opcode 0x5A with payload 0x00, the
    Start macro opcode 0x5A with payload [format | 0x80], the SetExposure
    macro opcode 0xC0 with payload [value] (conjuncts 2 to 4).  During a
    whole call nothing but these three datagrams goes on the wire
    (conjunct 5), and a call that gets past Init has sent exactly Stop,
    Start, SetExposure and, once the loop is left, Stop again, all to the
    camera, each one when its [sendto] succeeded (conjunct 6).  [format]
    and [value] are bytes. *)
Theorem command_datagram_layout (a : capture_args) (e : env) (dst0 : mem)
    (packets_received0 : Z) (w : world)
    (o : send_env) (ip port delay_ms : Z) (w0 : world) :
  0 <= video_format a < 256 -> 0 <= exposure a < 256 ->
  let stop := command_datagram 0x5a 0x00 in
  let start := command_datagram 0x5a (Z.lor (video_format a) 0x80) in
  let set_exposure := command_datagram 0xc0 (exposure a) in
  let on_wire bytes := {| sd_ip := ip; sd_port := port; sd_bytes := bytes |} in
  let run := pyvac248ipnative_capture_packets a e dst0 packets_received0 w in
  (forall command data,
      w_sent (snd (pyvac248ipnative_impl_send_command_ o ip port command data
                     delay_ms w0))
      = w_sent w0
        ++ sent_if o (on_wire (command_datagram (command mod 256) (data mod 256))))
  /\ w_sent (snd (pyvac248ipnative_impl_send_command_stop_ o ip port delay_ms w0))
     = w_sent w0 ++ sent_if o (on_wire stop)
  /\ w_sent (snd (pyvac248ipnative_impl_send_command_start_ o ip port (video_format a)
                    delay_ms w0))
     = w_sent w0 ++ sent_if o (on_wire start)
  /\ w_sent (snd (pyvac248ipnative_impl_send_command_exposure_ o ip port (exposure a)
                    delay_ms w0))
     = w_sent w0 ++ sent_if o (on_wire set_exposure)
  /\ sent_only (is_command a) w (snd run)
  /\ (init_succeeds e w ->
      w_sent (snd run)
      = w_sent w
        ++ sent_if (env_stop1 e) (to_camera a stop)
        ++ sent_if (env_start e) (to_camera a start)
        ++ sent_if (env_exposure e) (to_camera a set_exposure)
        ++ match fst run with
           | Some _ => sent_if (env_stop2 e) (to_camera a stop)
           | None => []
           end).
Proof.
  intros Hf He. cbv zeta.
  split; [| split; [| split; [| split; [| split]]]].
  - intros command data. rewrite send_command_wire_any, command_buf_layout. reflexivity.
  - unfold pyvac248ipnative_impl_send_command_stop_.
    rewrite send_command_wire_any. reflexivity.
  - unfold pyvac248ipnative_impl_send_command_start_.
    rewrite send_command_wire_any, (start_buf_layout _ Hf). reflexivity.
  - unfold pyvac248ipnative_impl_send_command_exposure_.
    rewrite send_command_wire_any, (exposure_buf_layout _ He). reflexivity.
  - apply sent_only_capture; assumption.
  - intros Hinit.
    destruct (pyvac248ipnative_capture_packets a e dst0 packets_received0 w) as [r w']
      eqn:Hrun.
    cbn [fst snd].
    rewrite (capture_wire a e dst0 packets_received0 w r w' Hinit Hrun).
    rewrite (start_buf_layout _ Hf), (exposure_buf_layout _ He). reflexivity.
Qed.

End Layout.

Lemma command_datagram_layout_witness :
  let a := example_args 3 in
  let e := lossy_env example_feed in
  let w := example_world 2 in
  let o := quiet_send in
  let w0 := example_world 2 in
  let stop := command_datagram 0x5a 0x00 in
  let start := command_datagram 0x5a (Z.lor (video_format a) 0x80) in
  let set_exposure := command_datagram 0xc0 (exposure a) in
  let on_wire bytes := {| sd_ip := camera; sd_port := 1024; sd_bytes := bytes |} in
  let run := pyvac248ipnative_capture_packets (P := linux) a e zeroed 0 w in
  (forall command data,
      w_sent (snd (pyvac248ipnative_impl_send_command_ (P := linux) o camera 1024
                     command data 10 w0))
      = w_sent w0
        ++ sent_if o (on_wire (command_datagram (command mod 256) (data mod 256))))
  /\ w_sent (snd (pyvac248ipnative_impl_send_command_stop_ (P := linux) o camera 1024
                    10 w0))
     = w_sent w0 ++ sent_if o (on_wire stop)
  /\ w_sent (snd (pyvac248ipnative_impl_send_command_start_ (P := linux) o camera 1024
                    (video_format a) 10 w0))
     = w_sent w0 ++ sent_if o (on_wire start)
  /\ w_sent (snd (pyvac248ipnative_impl_send_command_exposure_ (P := linux) o camera
                    1024 (exposure a) 10 w0))
     = w_sent w0 ++ sent_if o (on_wire set_exposure)
  /\ sent_only (is_command a) w (snd run)
  /\ (init_succeeds (P := linux) e w ->
      w_sent (snd run)
      = w_sent w
        ++ sent_if (env_stop1 e) (to_camera a stop)
        ++ sent_if (env_start e) (to_camera a start)
        ++ sent_if (env_exposure e) (to_camera a set_exposure)
        ++ match fst run with
           | Some _ => sent_if (env_stop2 e) (to_camera a stop)
           | None => []
           end).
Proof.
  apply (command_datagram_layout (P := linux) (example_args 3) (lossy_env example_feed)
           zeroed 0 (example_world 2) quiet_send camera 1024 10 (example_world 2));
    cbn; lia.
Defined.
